(** * ghost-cloudflare-cache-purge: the webhook handler of [src/index.js]

    A shallow embedding of the Cloudflare Worker that relays Ghost CMS
    webhooks to the Cloudflare purge API, and the properties its
    specification states about it.

    JavaScript strings are modelled as [string]; the values [undefined]
    and [null] of a [string | undefined] binding are [None]; HTTP status
    codes are integers in [Z].  The handler is effectful only through
    the console and the single outbound [fetch]: both are recorded, in
    program order, in the trace of a small writer/exception monad. *)

From Stdlib Require Import String Ascii List ZArith Bool Lia DecimalString.
Import ListNotations.

Local Open Scope string_scope.
Local Open Scope Z_scope.

Set Implicit Arguments.
Set Warnings "-register-all".

(* ================================================================== *)
(** ** Strings as the source uses them *)

Module JSString.

(** [s.startsWith(needle)] *)
Fixpoint starts_with (needle s : string) : bool :=
  match needle, s with
  | EmptyString, _ => true
  | String a needle', String b s' => Ascii.eqb a b && starts_with needle' s'
  | String _ _, EmptyString => false
  end.

(** [s.includes(needle)]: [needle] starts at some position of [s]. *)
Fixpoint includes (needle s : string) : bool :=
  starts_with needle s
  || match s with
     | EmptyString => false
     | String _ s' => includes needle s'
     end.

(** One pass of [s.split(sep)] for a one-character separator: [cur]
    holds the characters of the piece being read. *)
Fixpoint split_aux (sep : ascii) (cur : string) (s : string) : list string :=
  match s with
  | EmptyString => [cur]
  | String c s' =>
      if Ascii.eqb c sep
      then cur :: split_aux sep EmptyString s'
      else split_aux sep (cur ++ String c EmptyString) s'
  end.

(** [s.split("/")]: an empty string yields one empty piece. *)
Definition split (sep : ascii) (s : string) : list string :=
  split_aux sep EmptyString s.

(** [Boolean(s)] on a string: the empty string is the only falsy one. *)
Definition Boolean (s : string) : bool :=
  match s with EmptyString => false | String _ _ => true end.

(** [xs.join(sep)] *)
Fixpoint join (sep : string) (xs : list string) : string :=
  match xs with
  | [] => EmptyString
  | [x] => x
  | x :: rest => x ++ sep ++ join sep rest
  end.

(** ASCII lower-casing, as header names are compared. *)
Definition lower_ascii (c : ascii) : ascii :=
  let n := nat_of_ascii c in
  if (Nat.leb 65 n && Nat.leb n 90)%bool then ascii_of_nat (n + 32) else c.

Fixpoint lower (s : string) : string :=
  match s with
  | EmptyString => EmptyString
  | String c s' => String (lower_ascii c) (lower s')
  end.

(** Decimal rendering of an integer inside a template literal. *)
Definition of_Z (z : Z) : string := NilZero.string_of_int (Z.to_int z).

(** [`${x}`] for a binding that may be [undefined]. *)
Definition template (x : option string) : string :=
  match x with Some s => s | None => "undefined" end.

End JSString.

(* ================================================================== *)
(** ** Values produced by [request.json()] *)

(** A parsed JSON document.  An object is the list of its members in
    document order; numbers are kept integral, the handler only ever
    observes whether one is zero. *)
Inductive JSValue : Type :=
| JNull
| JBool (b : bool)
| JNum (n : Z)
| JStr (s : string)
| JArr (items : list JSValue)
| JObj (members : list (string * JSValue)).

Module JS.

(** Member lookup of [JSON.parse]d objects: a repeated key keeps its
    last value. *)
Fixpoint lookup (k : string) (members : list (string * JSValue))
  : option JSValue :=
  match members with
  | [] => None
  | (k', v) :: rest =>
      match lookup k rest with
      | Some v' => Some v'
      | None => if String.eqb k k' then Some v else None
      end
  end.

(** [v?.k] where [v] may already be [undefined] ([None]).  [null] and
    [undefined] short-circuit; a primitive or an array has no member
    of the names used here. *)
Definition opt_get (v : option JSValue) (k : string) : option JSValue :=
  match v with
  | Some (JObj members) => lookup k members
  | _ => None
  end.

(** Truthiness of a possibly [undefined] JSON value. *)
Definition truthy (v : option JSValue) : bool :=
  match v with
  | None => false
  | Some JNull => false
  | Some (JBool b) => b
  | Some (JNum n) => negb (n =? 0)
  | Some (JStr s) => JSString.Boolean s
  | Some (JArr _) => true
  | Some (JObj _) => true
  end.

(** Truthiness of a [string | undefined] binding: [!x] is [negb] of it. *)
Definition truthy_str (x : option string) : bool :=
  match x with
  | None => false
  | Some s => JSString.Boolean s
  end.

End JS.

(* ================================================================== *)
(** ** Requests, responses and the environment *)

(** The fields of a [URL] object the handler reads. *)
Record URL : Type := mkURL {
  href : string;
  protocol : string;
  host : string;
  pathname : string
}.

(** A thrown JavaScript error. *)
Record JSError : Type := mkError {
  err_name : string;
  message : string
}.

(** Result of an operation that may throw. *)
Inductive Outcome (A : Type) : Type :=
| Return (a : A)
| Throw (e : JSError).
Arguments Return {A} a.
Arguments Throw {A} e.

(** A [Response], whether built by the handler or received from
    [fetch].  [ok] and [statusText] are stored, since a received
    response carries its own. *)
Record Response : Type := mkResponse {
  body : string;
  status : Z;
  statusText : string;
  ok : bool
}.

(** The response [new Response(body, { status })] builds when the
    constructor accepts the status. *)
Definition new_Response (b : string) (st : Z) : Response :=
  {| body := b;
     status := st;
     statusText := "";
     ok := (200 <=? st) && (st <=? 299) |}.

(** The statuses of a response that has no body. *)
Definition null_body_status (st : Z) : bool :=
  (st =? 101) || (st =? 103) || (st =? 204) || (st =? 205) || (st =? 304).

Definition status_out_of_range : JSError :=
  {| err_name := "RangeError";
     message := "Responses may only be constructed with status codes in the range 200 to 599, inclusive." |}.

Definition body_with_null_body_status : JSError :=
  {| err_name := "TypeError";
     message := "Response with null body status cannot have a body." |}.

(** [new Response(body, { status })] for a string body, with the
    checks of the constructor: a [RangeError] for a status outside
    200..599, a [TypeError] for a body given with a null body status.
    The validators and [handlePurgeSuccess] pass the constants 200,
    400, 405 and 500, for which it is [new_Response]
    ([Response_new_constant] below); [handlePurgeFailure] passes the
    status of the provider's reply. *)
Definition Response_new (b : string) (st : Z) : Outcome Response :=
  if negb ((200 <=? st) && (st <=? 599)) then Throw status_out_of_range
  else if null_body_status st then Throw body_with_null_body_status
  else Return (new_Response b st).

Definition Headers : Type := list (string * string).

(** [headers.get(name)]: names compare ASCII-case-insensitively, the
    values of a repeated header are joined with [", "], and an absent
    header gives [null]. *)
Definition Headers_get (name : string) (hs : Headers) : option string :=
  match filter (fun h => String.eqb (JSString.lower (fst h)) (JSString.lower name)) hs with
  | [] => None
  | found => Some (JSString.join ", " (map snd found))
  end.

(** The inbound [Request].  [url] is the URL record the request holds:
    [request.url] is its serialisation and [new URL(request.url)] reads
    it back.  [json] is what [request.json()] settles to. *)
Record Request : Type := mkRequest {
  method : string;
  headers : Headers;
  url : URL;
  json : Outcome JSValue
}.

Record Env : Type := mkEnv {
  CF_API_TOKEN : option string
}.

(* ================================================================== *)
(** ** [JSON.stringify] *)

Module JSON.

Definition hex_digit (n : nat) : ascii :=
  ascii_of_nat (if Nat.ltb n 10 then 48 + n else 87 + n).

(** Escape of one character inside a JSON string literal: the quote,
    the backslash and the control characters below U+0020. *)
Definition escape_char (c : ascii) : string :=
  let n := nat_of_ascii c in
  if Nat.eqb n 34 then "\" ++ String c EmptyString
  else if Nat.eqb n 92 then "\\"
  else if Nat.eqb n 8 then "\b"
  else if Nat.eqb n 9 then "\t"
  else if Nat.eqb n 10 then "\n"
  else if Nat.eqb n 12 then "\f"
  else if Nat.eqb n 13 then "\r"
  else if Nat.ltb n 32
       then "\u00" ++ String (hex_digit (Nat.div n 16))
                        (String (hex_digit (Nat.modulo n 16)) EmptyString)
  else String c EmptyString.

Fixpoint escape (s : string) : string :=
  match s with
  | EmptyString => EmptyString
  | String c s' => escape_char c ++ escape s'
  end.

Definition quote (s : string) : string :=
  String (ascii_of_nat 34) (escape s ++ String (ascii_of_nat 34) EmptyString).

Fixpoint stringify (v : JSValue) : string :=
  match v with
  | JNull => "null"
  | JBool true => "true"
  | JBool false => "false"
  | JNum n => JSString.of_Z n
  | JStr s => quote s
  | JArr items =>
      "[" ++ JSString.join "," (map stringify items) ++ "]"
  | JObj members =>
      "{" ++ JSString.join ","
               (map (fun kv => quote (fst kv) ++ ":" ++ stringify (snd kv)) members)
          ++ "}"
  end.

End JSON.

(* ================================================================== *)
(** ** Effects: console output and the outbound call *)

(** The arguments of [fetch(url, init)] as [purgeURL] builds them. *)
Record FetchCall : Type := mkFetchCall {
  fetch_url : string;
  fetch_method : string;
  fetch_headers : Headers;
  fetch_body : string
}.

Inductive Event : Type :=
| console_log (args : list string)
| console_error (args : list string)
| outbound (call : FetchCall).

(** What the handler runs on: the [URL] constructor applied to a JSON
    value (it throws on what it cannot parse), the network behind
    [fetch], which answers a call with a response or rejects, and
    [response.text()] on a received response, which gives the text of
    its body or rejects when the body cannot be read. *)
Class Runtime : Type := mkRuntime {
  URL_new : JSValue -> Outcome URL;
  fetch_reply : FetchCall -> Outcome Response;
  Response_text : Response -> Outcome string
}.

(** A computation: the events it emitted, oldest first, and how it
    ended. *)
Definition M (A : Type) : Type := (list Event * Outcome A)%type.

Definition ret {A} (a : A) : M A := ([], Return a).

Definition throw {A} (e : JSError) : M A := ([], Throw e).

Definition bind {A B} (m : M A) (k : A -> M B) : M B :=
  match m with
  | (t, Return a) => let '(t', r) := k a in ((t ++ t')%list, r)
  | (t, Throw e) => (t, Throw e)
  end.

(** [try { m } catch (error) { h error }] *)
Definition try_catch {A} (m : M A) (h : JSError -> M A) : M A :=
  match m with
  | (t, Return a) => (t, Return a)
  | (t, Throw e) => let '(t', r) := h e in ((t ++ t')%list, r)
  end.

Definition emit (ev : Event) : M unit := ([ev], Return tt).

(** An operation of the platform that only returns or throws. *)
Definition lift {A} (o : Outcome A) : M A := ([], o).

Definition trace {A} (m : M A) : list Event := fst m.
Definition outcome {A} (m : M A) : Outcome A := snd m.

Declare Scope js_scope.
Delimit Scope js_scope with js.
Notation "x <- m ;; k" := (bind m (fun x => k))
  (at level 61, m at next level, right associativity) : js_scope.
Notation "m ;; k" := (bind m (fun _ => k))
  (at level 61, right associativity) : js_scope.
(** [const e = v; if (e) return e;] for a pure validator. *)
Notation "'return_if' v ;; k" :=
  (match v with Some e => ret e | None => k end)
  (at level 61, v at next level, right associativity) : js_scope.
(** The same for a validator that writes to the console. *)
Notation "'return_if_m' m ;; k" :=
  (bind m (fun v => match v with Some e => ret e | None => k end))
  (at level 61, m at next level, right associativity) : js_scope.

(** [await fetch(url, init)]: the call is recorded, then answered. *)
Definition fetch `{Runtime} (call : FetchCall) : M Response :=
  bind (emit (outbound call)) (fun _ => lift (fetch_reply call)).

(* ================================================================== *)
(** ** The source, function by function *)

(** HTTP status codes *)
Definition HTTP_OK : Z := 200.
Definition HTTP_BAD_REQUEST : Z := 400.
Definition HTTP_METHOD_NOT_ALLOWED : Z := 405.
Definition HTTP_INTERNAL_ERROR : Z := 500.

(** Error messages *)
Definition ERROR_METHOD_NOT_ALLOWED := "Method not allowed. Only POST requests are accepted.".
Definition ERROR_INVALID_CONTENT_TYPE := "Invalid content type. Only application/json is accepted.".
Definition ERROR_MISSING_ZONE_ID := "Missing zone ID in URL path.".
Definition ERROR_MISSING_ACTION := "Missing action in URL path.".
Definition ERROR_INVALID_ACTION := "Invalid action. Allowed actions: postPublished, postUpdated.".
Definition ERROR_MISSING_API_TOKEN := "Missing Cloudflare API token in environment.".
Definition ERROR_INVALID_WEBHOOK := "Invalid webhook payload structure.".
Definition ERROR_INVALID_ZONE_FORMAT := "Invalid zone ID format.".

(** Valid actions *)
Definition ACTION_POST_PUBLISHED := "postPublished".
Definition ACTION_POST_UPDATED := "postUpdated".
Definition VALID_ACTIONS := [ACTION_POST_PUBLISHED; ACTION_POST_UPDATED].

(** [xs.includes(x)] on an array of strings *)
Definition Array_includes (xs : list string) (x : string) : bool :=
  existsb (String.eqb x) xs.

(** The character class [[a-f0-9]] under the [i] flag. *)
Definition hex_class (c : ascii) : bool :=
  let n := nat_of_ascii c in
  (Nat.leb 48 n && Nat.leb n 57)      (* 0-9 *)
  || (Nat.leb 97 n && Nat.leb n 102)  (* a-f *)
  || (Nat.leb 65 n && Nat.leb n 70).  (* A-F, by the i flag *)

(** [{n}] repetitions of the class followed by [$]. *)
Fixpoint match_hex_times (n : nat) (s : string) : bool :=
  match n, s with
  | O, EmptyString => true
  | S n', String c s' => hex_class c && match_hex_times n' s'
  | _, _ => false
  end.

(** [/^[a-f0-9]{32}$/i.test(s)] *)
Definition zone_regex_test (s : string) : bool := match_hex_times 32 s.

(** Lines 34-45 *)
Definition validateRequest (request : Request) : option Response :=
  if negb (String.eqb (method request) "POST") then
    Some (new_Response ERROR_METHOD_NOT_ALLOWED HTTP_METHOD_NOT_ALLOWED)
  else
    let contentType :=
      match Headers_get "content-type" (headers request) with
      | Some v => if JSString.Boolean v then v else ""
      | None => ""
      end in
    if negb (JSString.includes "application/json" contentType) then
      Some (new_Response ERROR_INVALID_CONTENT_TYPE HTTP_BAD_REQUEST)
    else None.

(** Lines 53-63 *)
Definition validateZoneID (zoneID : option string) : option Response :=
  if negb (JS.truthy_str zoneID) then
    Some (new_Response ERROR_MISSING_ZONE_ID HTTP_BAD_REQUEST)
  else if negb (zone_regex_test (JSString.template zoneID)) then
    Some (new_Response ERROR_INVALID_ZONE_FORMAT HTTP_BAD_REQUEST)
  else None.

(** Lines 71-81 *)
Definition validateAction (action : option string) : option Response :=
  if negb (JS.truthy_str action) then
    Some (new_Response ERROR_MISSING_ACTION HTTP_BAD_REQUEST)
  else if negb (match action with
                | Some a => Array_includes VALID_ACTIONS a
                | None => false
                end) then
    Some (new_Response ERROR_INVALID_ACTION HTTP_BAD_REQUEST)
  else None.

Local Open Scope js_scope.

(** Lines 89-96 *)
Definition validateApiToken (apiToken : option string) : M (option Response) :=
  if negb (JS.truthy_str apiToken) then
    emit (console_error ["Missing CF_API_TOKEN in environment variables"]) ;;
    ret (Some (new_Response ERROR_MISSING_API_TOKEN HTTP_INTERNAL_ERROR))
  else ret None.

(** [body?.post?.current?.url] *)
Definition post_current_url (body : JSValue) : option JSValue :=
  JS.opt_get (JS.opt_get (JS.opt_get (Some body) "post") "current") "url".

(** Lines 104-111 *)
Definition validateWebhookBody (body : JSValue) : M (option Response) :=
  if negb (JS.truthy (post_current_url body)) then
    emit (console_error ["Invalid webhook payload: missing post.current.url"]) ;;
    ret (Some (new_Response ERROR_INVALID_WEBHOOK HTTP_BAD_REQUEST))
  else ret None.

(** Lines 121-145 *)
Definition getUrlsToPurge (action : option string) (rootURL postURL : string)
  : list string :=
  (* Common URLs to purge *)
  let urls :=
    [ rootURL ++ "/sitemap.xml";
      rootURL ++ "/sitemap-posts.xml";
      rootURL ++ "/sitemap-pages.xml";
      rootURL ++ "/sitemap-tags.xml";
      rootURL ++ "/sitemap-news/";
      rootURL ++ "/rss/" ] in
  match action with
  | Some a =>
      if String.eqb a ACTION_POST_PUBLISHED then (urls ++ [rootURL])%list
      else if String.eqb a ACTION_POST_UPDATED then (urls ++ [postURL])%list
      else urls
  | None => urls
  end.

(** Lines 155-162 *)
Definition handlePurgeFailure `{Runtime} (response : Response)
    (zoneID : option string) (urls : list string) : M Response :=
  errorText <- lift (Response_text response) ;;
  emit (console_error
          ["🧹 Purge failed: " ++ JSString.of_Z (status response) ++ " "
             ++ statusText response ++ " - "
             ++ "Zone: " ++ JSString.template zoneID
             ++ " - URLs: " ++ JSString.join ", " urls
             ++ " - Error: " ++ errorText]) ;;
  lift (Response_new ("Cache purge failed: " ++ statusText response)
                     (status response)).

(** Lines 171-174 *)
Definition handlePurgeSuccess (zoneID : option string) (urls : list string)
  : M Response :=
  emit (console_log
          ["🧹 Successfully purged: Zone: " ++ JSString.template zoneID
             ++ " - URLs: " ++ JSString.join ", " urls]) ;;
  ret (new_Response "OK" HTTP_OK).

(** Lines 241-252 *)
Definition purgeURL `{Runtime} (urlToPurge : list string)
    (zoneID apiToken : option string) : M Response :=
  let requestInit_method := "POST" in
  let requestInit_headers :=
    [ ("Content-Type", "application/json");
      ("Authorization", "Bearer " ++ JSString.template apiToken) ] in
  let requestInit_body :=
    JSON.stringify (JObj [("files", JArr (map JStr urlToPurge))]) in
  fetch {| fetch_url := "https://api.cloudflare.com/client/v4/zones/"
                          ++ JSString.template zoneID ++ "/purge_cache";
           fetch_method := requestInit_method;
           fetch_headers := requestInit_headers;
           fetch_body := requestInit_body |}.

(** Lines 261-263 *)
Definition parseWebhookBody (request : Request) : M JSValue :=
  lift (json request).

(** [body.post.current.url] read without optional chaining: a missing
    link of the chain is a [TypeError]. *)
Definition read_post_current_url (body : JSValue) : M JSValue :=
  match post_current_url body with
  | Some v => ret v
  | None =>
      throw {| err_name := "TypeError";
               message := "Cannot read properties of undefined" |}
  end.

(** Lines 183-231 *)
Definition handleRequest `{Runtime} (request : Request) (env : Env)
  : M Response :=
  (* Validate request *)
  return_if validateRequest request ;;

  (* Extract path parameters *)
  let url := url request in
  let segments :=
    filter JSString.Boolean (JSString.split "/" (pathname url)) in
  let zoneID := nth_error segments 0 in
  let action := nth_error segments 1 in

  (* Validate zone ID *)
  return_if validateZoneID zoneID ;;

  (* Validate action *)
  return_if validateAction action ;;

  (* Validate API token *)
  return_if_m validateApiToken (CF_API_TOKEN env) ;;

  (* Parse webhook body *)
  parsed <- try_catch
              (body <- parseWebhookBody request ;; ret (inl body))
              (fun error =>
                 emit (console_error ["Failed to parse webhook body:";
                                      message error]) ;;
                 ret (inr (new_Response ERROR_INVALID_WEBHOOK
                                        HTTP_BAD_REQUEST))) ;;
  match parsed with
  | inr early => ret early
  | inl body =>

  (* Validate webhook structure *)
  return_if_m validateWebhookBody body ;;

  (* Extract URLs *)
  url_value <- read_post_current_url body ;;
  postURL <- lift (URL_new url_value) ;;
  let rootURL := protocol postURL ++ "//" ++ host postURL in

  (* Determine URLs to purge *)
  let urlsToPurge := getUrlsToPurge action rootURL (href postURL) in

  (* Purge URLs from Cloudflare Cache *)
  response <- purgeURL urlsToPurge zoneID (CF_API_TOKEN env) ;;

  (* Handle response *)
  if ok response
  then handlePurgeSuccess zoneID urlsToPurge
  else handlePurgeFailure response zoneID urlsToPurge
  end.

Local Close Scope js_scope.

(* ================================================================== *)
(** ** A runtime to run the handler on concrete requests *)

(** The [URL] constructor restricted to plain web addresses
    [http(s)://host/path]: the scheme is read as the URL standard reads
    it (a letter, then letters, digits, [+], [-] or [.], up to the
    colon), so that text without a scheme is rejected as it is by the
    platform; what follows must be [//], a host of letters, digits,
    dots and hyphens, and a path that needs no normalisation.  Anything
    else is rejected. *)
Module SimpleRuntime.

Definition is_alpha (c : ascii) : bool :=
  let n := nat_of_ascii c in
  ((Nat.leb 97 n && Nat.leb n 122) || (Nat.leb 65 n && Nat.leb n 90))%bool.

Definition is_digit (c : ascii) : bool :=
  let n := nat_of_ascii c in (Nat.leb 48 n && Nat.leb n 57)%bool.

Definition is_scheme_char (c : ascii) : bool :=
  is_alpha c || is_digit c
  || Ascii.eqb c "+" || Ascii.eqb c "-" || Ascii.eqb c ".".

Definition is_host_char (c : ascii) : bool :=
  is_alpha c || is_digit c || Ascii.eqb c "-" || Ascii.eqb c ".".

Definition is_path_char (c : ascii) : bool :=
  is_host_char c || Ascii.eqb c "/" || Ascii.eqb c "_" || Ascii.eqb c "~".

(** Scheme state: [acc] is the lower-cased scheme read so far. *)
Fixpoint scan_scheme (acc : string) (s : string) : option (string * string) :=
  match s with
  | EmptyString => None
  | String c rest =>
      if Ascii.eqb c ":" then Some (acc, rest)
      else if is_scheme_char c
           then scan_scheme (acc ++ String (JSString.lower_ascii c) EmptyString) rest
           else None
  end.

(** Scheme start state. *)
Definition parse_scheme (s : string) : option (string * string) :=
  match s with
  | String c rest =>
      if is_alpha c
      then scan_scheme (String (JSString.lower_ascii c) EmptyString) rest
      else None
  | EmptyString => None
  end.

(** The longest prefix without a slash, and what follows it. *)
Fixpoint upto_slash (s : string) : string * string :=
  match s with
  | EmptyString => (EmptyString, EmptyString)
  | String c rest =>
      if Ascii.eqb c "/" then (EmptyString, s)
      else let '(a, b) := upto_slash rest in (String c a, b)
  end.

Definition invalid_URL : JSError :=
  {| err_name := "TypeError"; message := "Invalid URL" |}.

Definition parse (s : string) : Outcome URL :=
  match parse_scheme s with
  | Some (scheme, String "/" (String "/" rest)) =>
      let '(authority, path) := upto_slash rest in
      if (String.eqb scheme "http" || String.eqb scheme "https")
         && JSString.Boolean authority
         && forallb is_host_char (list_ascii_of_string authority)
         && forallb is_path_char (list_ascii_of_string path)
         && negb (JSString.includes "/." path)
      then
        let h := JSString.lower authority in
        let p := if JSString.Boolean path then path else "/" in
        Return {| href := scheme ++ "://" ++ h ++ p;
                  protocol := scheme ++ ":";
                  host := h;
                  pathname := p |}
      else Throw invalid_URL
  | _ => Throw invalid_URL
  end.

(** The constructor converts its argument to a string first; only
    string arguments are taken here. *)
Definition URL_of_value (v : JSValue) : Outcome URL :=
  match v with
  | JStr s => parse s
  | _ => Throw invalid_URL
  end.

(** The runtime whose network answers with [reply]; the body of a
    reply is read in full. *)
Definition make (reply : FetchCall -> Outcome Response) : Runtime :=
  {| URL_new := URL_of_value;
     fetch_reply := reply;
     Response_text := fun response => Return (body response) |}.

End SimpleRuntime.

(* ================================================================== *)
(** ** Names for the parts of [handleRequest] the properties speak of *)

(** Line 190: the non-empty pieces of the path. *)
Definition path_segments (path : string) : list string :=
  filter JSString.Boolean (JSString.split "/" path).

Definition request_zoneID (request : Request) : option string :=
  nth_error (path_segments (pathname (url request))) 0.

Definition request_action (request : Request) : option string :=
  nth_error (path_segments (pathname (url request))) 1.

(** The value of [post.current.url] in the body of a request, when the
    body parses and has one. *)
Definition request_post_url (request : Request) : option JSValue :=
  match json request with
  | Return b => post_current_url b
  | Throw _ => None
  end.

(** Lines 218-222 as a function of the action and of the value of
    [post.current.url]: the spec's [deriveUrls]. *)
Definition deriveUrls `{Runtime} (action : option string) (url_value : JSValue)
  : Outcome (list string) :=
  match URL_new url_value with
  | Return postURL =>
      let rootURL := protocol postURL ++ "//" ++ host postURL in
      Return (getUrlsToPurge action rootURL (href postURL))
  | Throw e => Throw e
  end.

(** The call [purgeURL] sends for a list of URLs. *)
Definition purge_call (urls : list string) (zoneID apiToken : option string)
  : FetchCall :=
  {| fetch_url := "https://api.cloudflare.com/client/v4/zones/"
                    ++ JSString.template zoneID ++ "/purge_cache";
     fetch_method := "POST";
     fetch_headers :=
       [ ("Content-Type", "application/json");
         ("Authorization", "Bearer " ++ JSString.template apiToken) ];
     fetch_body := JSON.stringify (JObj [("files", JArr (map JStr urls))]) |}.

(** Lines 224-230: what follows once the URLs are known. *)
Definition dispatch `{Runtime} (urls : list string) (zoneID apiToken : option string)
  : M Response :=
  bind (purgeURL urls zoneID apiToken) (fun response =>
    if ok response
    then handlePurgeSuccess zoneID urls
    else handlePurgeFailure response zoneID urls).

(** The outbound calls of a run, in order. *)
Fixpoint fetch_calls (t : list Event) : list FetchCall :=
  match t with
  | [] => []
  | outbound c :: t' => c :: fetch_calls t'
  | _ :: t' => fetch_calls t'
  end.

(* ================================================================== *)
(** ** The validator as the specification words it (section 4.1) *)

(** The nine checks, in the order the specification lists them. *)
Inductive Check : Type :=
| MethodIsPost
| ContentTypeIsJson
| ZonePresent
| ZoneFormat
| ActionPresent
| ActionRecognised
| TokenConfigured
| BodyParses
| BodyHasPostUrl.

Definition check_order : list Check :=
  [ MethodIsPost; ContentTypeIsJson; ZonePresent; ZoneFormat; ActionPresent;
    ActionRecognised; TokenConfigured; BodyParses; BodyHasPostUrl ].

(** The hexadecimal digits, in either case. *)
Definition hex_digits : list ascii := list_ascii_of_string "0123456789abcdefABCDEF".

(** A zone identifier is valid iff it is 32 hexadecimal digits. *)
Definition matches_zone_pattern (s : string) : Prop :=
  String.length s = 32%nat /\ Forall (fun c => In c hex_digits) (list_ascii_of_string s).

Definition matches_zone_patternb (s : string) : bool :=
  Nat.eqb (String.length s) 32
  && forallb (fun c => existsb (Ascii.eqb c) hex_digits) (list_ascii_of_string s).

(** [needle] occurs in [s]. *)
Definition contains (s needle : string) : Prop :=
  exists before after, s = before ++ needle ++ after.

Definition nonempty (x : option string) : bool :=
  match x with
  | Some s => negb (String.eqb s "")
  | None => false
  end.

(** Whether a check holds of a request.  A body "has" [post.current.url]
    when the member is there and is not one of the falsy values (the
    empty string, [0], [false], [null]) that line 105 counts as missing. *)
Definition check_holds (request : Request) (env : Env) (c : Check) : bool :=
  match c with
  | MethodIsPost => String.eqb (method request) "POST"
  | ContentTypeIsJson =>
      match Headers_get "content-type" (headers request) with
      | Some v => JSString.includes "application/json" v
      | None => false
      end
  | ZonePresent => nonempty (request_zoneID request)
  | ZoneFormat =>
      match request_zoneID request with
      | Some z => matches_zone_patternb z
      | None => false
      end
  | ActionPresent => nonempty (request_action request)
  | ActionRecognised =>
      match request_action request with
      | Some a => String.eqb a "postPublished" || String.eqb a "postUpdated"
      | None => false
      end
  | TokenConfigured => nonempty (CF_API_TOKEN env)
  | BodyParses =>
      match json request with
      | Return _ => true
      | Throw _ => false
      end
  | BodyHasPostUrl => JS.truthy (request_post_url request)
  end.

(** The status a failed check answers with. *)
Definition check_status (c : Check) : Z :=
  match c with
  | MethodIsPost => 405
  | TokenConfigured => 500
  | _ => 400
  end.

Definition check_message (c : Check) : string :=
  match c with
  | MethodIsPost => ERROR_METHOD_NOT_ALLOWED
  | ContentTypeIsJson => ERROR_INVALID_CONTENT_TYPE
  | ZonePresent => ERROR_MISSING_ZONE_ID
  | ZoneFormat => ERROR_INVALID_ZONE_FORMAT
  | ActionPresent => ERROR_MISSING_ACTION
  | ActionRecognised => ERROR_INVALID_ACTION
  | TokenConfigured => ERROR_MISSING_API_TOKEN
  | BodyParses => ERROR_INVALID_WEBHOOK
  | BodyHasPostUrl => ERROR_INVALID_WEBHOOK
  end.

(** What a failed check writes to the console. *)
Definition check_console (request : Request) (c : Check) : list Event :=
  match c with
  | TokenConfigured =>
      [console_error ["Missing CF_API_TOKEN in environment variables"]]
  | BodyParses =>
      match json request with
      | Throw e => [console_error ["Failed to parse webhook body:"; message e]]
      | Return _ => []
      end
  | BodyHasPostUrl =>
      [console_error ["Invalid webhook payload: missing post.current.url"]]
  | _ => []
  end.

(** The first check of the list that fails, if any. *)
Definition first_failure (request : Request) (env : Env) : option Check :=
  find (fun c => negb (check_holds request env c)) check_order.

(** A request passes validation when no check fails. *)
Definition passes_validation (request : Request) (env : Env) : Prop :=
  first_failure request env = None.

(** Lines 217-230 for a request that passed validation. *)
Definition after_validation `{Runtime} (request : Request) (env : Env)
  : M Response :=
  match request_post_url request with
  | Some v =>
      match deriveUrls (request_action request) v with
      | Return urls =>
          dispatch urls (request_zoneID request) (CF_API_TOKEN env)
      | Throw e => throw e
      end
  | None =>
      throw {| err_name := "TypeError";
               message := "Cannot read properties of undefined" |}
  end.

(** A string without a slash: a piece of a path. *)
Definition slash_free (s : string) : Prop :=
  ~ In "/"%char (list_ascii_of_string s).

(* ================================================================== *)
(** ** Concrete requests *)

Module Examples.

Definition zone : string := "0123456789abcdef0123456789ABCDEF".

Definition webhook_body (post_url : string) : JSValue :=
  JObj [ ("post",
          JObj [ ("current",
                  JObj [ ("id", JStr "64f0c0ffee");
                         ("url", JStr post_url) ]) ]) ].

(** A webhook as Ghost sends it to [/zone/action]. *)
Definition webhook (action post_url : string) : Request :=
  {| method := "POST";
     headers := [ ("Content-Type", "application/json") ];
     url := {| href := "https://purge.example.workers.dev/" ++ zone ++ "/" ++ action;
               protocol := "https:";
               host := "purge.example.workers.dev";
               pathname := "/" ++ zone ++ "/" ++ action |};
     json := Return (webhook_body post_url) |}.

Definition env : Env := {| CF_API_TOKEN := Some "secret-token" |}.

Definition purged : Response :=
  {| body := "{}"; status := 200; statusText := "OK"; ok := true |}.

Definition forbidden : Response :=
  {| body := "Forbidden"; status := 403; statusText := "Forbidden"; ok := false |}.

(** The platform when the provider accepts, and when it refuses. *)
Definition accepting : Runtime := SimpleRuntime.make (fun _ => Return purged).
Definition refusing : Runtime := SimpleRuntime.make (fun _ => Return forbidden).

(** A reply that is not ok and has a null body status. *)
Definition not_modified : Response :=
  {| body := ""; status := 304; statusText := "Not Modified"; ok := false |}.

Definition unchanged : Runtime := SimpleRuntime.make (fun _ => Return not_modified).

(** The platform when the network is down. *)
Definition network_down : JSError :=
  {| err_name := "TypeError"; message := "Network connection lost." |}.
Definition offline : Runtime := SimpleRuntime.make (fun _ => Throw network_down).

Definition post_url : string := "https://example.com/my-post/".

Definition site_urls : list string :=
  [ "https://example.com/sitemap.xml";
    "https://example.com/sitemap-posts.xml";
    "https://example.com/sitemap-pages.xml";
    "https://example.com/sitemap-tags.xml";
    "https://example.com/sitemap-news/";
    "https://example.com/rss/" ].

Definition updated_call : FetchCall :=
  purge_call (site_urls ++ [post_url])%list (Some zone) (Some "secret-token").

(** A second webhook for the same post: another zone, another token,
    other headers and other body fields. *)
Definition other_webhook : Request :=
  {| method := "POST";
     headers := [ ("content-type", "application/json; charset=utf-8");
                  ("User-Agent", "Ghost") ];
     url := {| href := "https://other.example.workers.dev/ffffffffffffffffffffffffffffffff/postUpdated";
               protocol := "https:";
               host := "other.example.workers.dev";
               pathname := "/ffffffffffffffffffffffffffffffff/postUpdated" |};
     json := Return (JObj [ ("post",
                             JObj [ ("current",
                                     JObj [ ("url", JStr post_url);
                                            ("title", JStr "Edited") ]);
                                    ("previous", JObj []) ]) ]) |}.

Definition other_env : Env := {| CF_API_TOKEN := Some "another-token" |}.

(** The webhook sent to a path with repeated slashes and further
    segments. *)
Definition long_path_webhook : Request :=
  {| method := "POST";
     headers := [ ("Content-Type", "application/json") ];
     url := {| href := "https://purge.example.workers.dev/" ++ zone
                         ++ "//postUpdated/extra/segments";
               protocol := "https:";
               host := "purge.example.workers.dev";
               pathname := "/" ++ zone ++ "//postUpdated/extra/segments" |};
     json := Return (webhook_body post_url) |}.

End Examples.

(* ================================================================== *)
(** ** The entry point and the shapes of a run *)

(** Lines 22-26: the [fetch] handler the worker exports. *)
Definition default_fetch `{Runtime} (request : Request) (env : Env)
  : M Response :=
  handleRequest request env.

(** What a run wrote to the console, in order. *)
Fixpoint console_events (t : list Event) : list Event :=
  match t with
  | [] => []
  | outbound _ :: t' => console_events t'
  | ev :: t' => ev :: console_events t'
  end.

(** A path made of [n] slashes. *)
Fixpoint slashes (n : nat) : string :=
  match n with
  | O => EmptyString
  | S n' => String "/" (slashes n')
  end.

(** The six site-wide resources purged for every action (lines 124-131). *)
Definition site_wide (rootURL : string) : list string :=
  [ rootURL ++ "/sitemap.xml";
    rootURL ++ "/sitemap-posts.xml";
    rootURL ++ "/sitemap-pages.xml";
    rootURL ++ "/sitemap-tags.xml";
    rootURL ++ "/sitemap-news/";
    rootURL ++ "/rss/" ].

(** The bodies [validateWebhookBody] lets through: objects whose
    [post] is an object whose [current] is an object with a truthy
    [url]. *)
Definition well_formed_webhook (b : JSValue) : Prop :=
  exists top post current v,
    b = JObj top
    /\ JS.lookup "post" top = Some (JObj post)
    /\ JS.lookup "current" post = Some (JObj current)
    /\ JS.lookup "url" current = Some v
    /\ JS.truthy (Some v) = true.

(** The line [handlePurgeFailure] writes to the error console. *)
Definition purge_failure_line (response : Response) (zoneID : option string)
    (urls : list string) (errorText : string) : Event :=
  console_error
    ["🧹 Purge failed: " ++ JSString.of_Z (status response) ++ " "
       ++ statusText response ++ " - "
       ++ "Zone: " ++ JSString.template zoneID
       ++ " - URLs: " ++ JSString.join ", " urls
       ++ " - Error: " ++ errorText].

(** The ways a run of the handler can go: a failed check, a post URL
    the constructor rejects, a rejected [fetch], a purge the provider
    accepts, and a purge it refuses, where the handler answers, or
    fails to read the reply, or fails to build its response. *)
Inductive Run {rt : Runtime} (request : Request) (env : Env)
  : M Response -> Prop :=
| run_rejected (c : Check) :
    first_failure request env = Some c ->
    Run request env
        (check_console request c,
         Return (new_Response (check_message c) (check_status c)))
| run_bad_url (v : JSValue) (e : JSError) :
    passes_validation request env ->
    request_post_url request = Some v ->
    URL_new v = Throw e ->
    Run request env ([], Throw e)
| run_network_error (v : JSValue) (urls : list string) (e : JSError) :
    passes_validation request env ->
    request_post_url request = Some v ->
    deriveUrls (request_action request) v = Return urls ->
    fetch_reply (purge_call urls (request_zoneID request) (CF_API_TOKEN env))
    = Throw e ->
    Run request env
        ([outbound (purge_call urls (request_zoneID request)
                               (CF_API_TOKEN env))],
         Throw e)
| run_purged (v : JSValue) (urls : list string) (response : Response) :
    passes_validation request env ->
    request_post_url request = Some v ->
    deriveUrls (request_action request) v = Return urls ->
    fetch_reply (purge_call urls (request_zoneID request) (CF_API_TOKEN env))
    = Return response ->
    ok response = true ->
    Run request env
        (outbound (purge_call urls (request_zoneID request) (CF_API_TOKEN env))
           :: trace (handlePurgeSuccess (request_zoneID request) urls),
         Return (new_Response "OK" 200))
| run_refused (v : JSValue) (urls : list string) (response : Response)
    (errorText : string) :
    passes_validation request env ->
    request_post_url request = Some v ->
    deriveUrls (request_action request) v = Return urls ->
    fetch_reply (purge_call urls (request_zoneID request) (CF_API_TOKEN env))
    = Return response ->
    ok response = false ->
    Response_text response = Return errorText ->
    Response_new ("Cache purge failed: " ++ statusText response)
                 (status response)
    = Return (new_Response ("Cache purge failed: " ++ statusText response)
                           (status response)) ->
    Run request env
        ([ outbound (purge_call urls (request_zoneID request) (CF_API_TOKEN env));
           purge_failure_line response (request_zoneID request) urls errorText ],
         Return (new_Response ("Cache purge failed: " ++ statusText response)
                              (status response)))
| run_reply_unread (v : JSValue) (urls : list string) (response : Response)
    (e : JSError) :
    passes_validation request env ->
    request_post_url request = Some v ->
    deriveUrls (request_action request) v = Return urls ->
    fetch_reply (purge_call urls (request_zoneID request) (CF_API_TOKEN env))
    = Return response ->
    ok response = false ->
    Response_text response = Throw e ->
    Run request env
        ([ outbound (purge_call urls (request_zoneID request) (CF_API_TOKEN env)) ],
         Throw e)
| run_response_refused (v : JSValue) (urls : list string) (response : Response)
    (errorText : string) (e : JSError) :
    passes_validation request env ->
    request_post_url request = Some v ->
    deriveUrls (request_action request) v = Return urls ->
    fetch_reply (purge_call urls (request_zoneID request) (CF_API_TOKEN env))
    = Return response ->
    ok response = false ->
    Response_text response = Return errorText ->
    Response_new ("Cache purge failed: " ++ statusText response)
                 (status response)
    = Throw e ->
    Run request env
        ([ outbound (purge_call urls (request_zoneID request) (CF_API_TOKEN env));
           purge_failure_line response (request_zoneID request) urls errorText ],
         Throw e).

(* ================================================================== *)
(** ** Facts about the string operations *)

Lemma starts_with_app (needle rest : string) :
  JSString.starts_with needle (needle ++ rest) = true.
Proof.
  induction needle as [|c needle IH]; simpl.
  - reflexivity.
  - rewrite Ascii.eqb_refl. exact IH.
Qed.

Lemma starts_with_split (needle s : string) :
  JSString.starts_with needle s = true -> exists rest, s = needle ++ rest.
Proof.
  revert s. induction needle as [|c needle IH]; intros s Hp.
  - exists s. reflexivity.
  - destruct s as [|d s]; simpl in Hp; [discriminate|].
    apply andb_true_iff in Hp. destruct Hp as [Hcd Hp].
    apply Ascii.eqb_eq in Hcd. subst d.
    destruct (IH s Hp) as [rest ->]. exists rest. reflexivity.
Qed.

(** [includes] decides occurrence. *)
Lemma includes_contains (needle s : string) :
  JSString.includes needle s = true <-> contains s needle.
Proof.
  split.
  - induction s as [|c s IH]; simpl; intros Hi;
      apply orb_true_iff in Hi; destruct Hi as [Hp|Hi].
    + destruct (starts_with_split _ _ Hp) as [rest Hr].
      exists EmptyString, rest. exact Hr.
    + discriminate.
    + destruct (starts_with_split _ _ Hp) as [rest Hr].
      exists EmptyString, rest. exact Hr.
    + destruct (IH Hi) as (before & after & ->).
      exists (String c before), after. reflexivity.
  - intros (before & after & ->).
    induction before as [|c before IH].
    + change (EmptyString ++ needle ++ after) with (needle ++ after).
      assert (H := starts_with_app needle after).
      destruct (needle ++ after); simpl; rewrite H; reflexivity.
    + simpl. simpl in IH. rewrite IH. apply orb_true_r.
Qed.

Lemma Boolean_eqb (s : string) :
  JSString.Boolean s = negb (String.eqb s "").
Proof. destruct s; reflexivity. Qed.

Lemma truthy_str_nonempty (x : option string) :
  JS.truthy_str x = nonempty x.
Proof. destruct x as [s|]; simpl; [apply Boolean_eqb | reflexivity]. Qed.

(** The class [[a-f0-9]] with the [i] flag is the set of hexadecimal
    digits. *)
Lemma hex_class_spec (c : ascii) :
  hex_class c = existsb (Ascii.eqb c) hex_digits.
Proof.
  destruct c as [[] [] [] [] [] [] [] []]; reflexivity.
Qed.

Lemma existsb_eqb_In (c : ascii) (l : list ascii) :
  existsb (Ascii.eqb c) l = true <-> In c l.
Proof.
  rewrite existsb_exists. split.
  - intros (d & Hd & He). apply Ascii.eqb_eq in He. subst. exact Hd.
  - intros Hc. exists c. split; [exact Hc | apply Ascii.eqb_refl].
Qed.

(** The anchored, counted repetition checks length and class. *)
Lemma match_hex_times_spec (n : nat) (s : string) :
  match_hex_times n s
  = Nat.eqb (String.length s) n
    && forallb (fun c => existsb (Ascii.eqb c) hex_digits) (list_ascii_of_string s).
Proof.
  revert s. induction n as [|n IH]; intros [|c s];
    cbn [match_hex_times String.length list_ascii_of_string forallb Nat.eqb];
    try reflexivity.
  rewrite IH, hex_class_spec.
  destruct (existsb (Ascii.eqb c) hex_digits).
  - rewrite !andb_true_l. reflexivity.
  - rewrite andb_false_l, andb_false_r. reflexivity.
Qed.

Lemma zone_regex_test_patternb (s : string) :
  zone_regex_test s = matches_zone_patternb s.
Proof. apply match_hex_times_spec. Qed.

Lemma matches_zone_patternb_spec (s : string) :
  matches_zone_patternb s = true <-> matches_zone_pattern s.
Proof.
  unfold matches_zone_patternb, matches_zone_pattern.
  rewrite andb_true_iff, Nat.eqb_eq, forallb_forall, Forall_forall.
  split; intros [Hl Hc]; split; try exact Hl; intros c Hin.
  - apply existsb_eqb_In. exact (Hc c Hin).
  - apply existsb_eqb_In. exact (Hc c Hin).
Qed.

(* ================================================================== *)
(** ** Laws of the monad *)

Lemma bind_ret {A B} (a : A) (k : A -> M B) : bind (ret a) k = k a.
Proof. unfold bind, ret. destruct (k a). reflexivity. Qed.

Lemma bind_throw {A B} (e : JSError) (k : A -> M B) :
  bind (throw e) k = throw e.
Proof. reflexivity. Qed.

Lemma bind_emit {B} (ev : Event) (k : unit -> M B) :
  bind (emit ev) k = (ev :: trace (k tt), outcome (k tt)).
Proof. unfold bind, emit, trace, outcome. destruct (k tt). reflexivity. Qed.

Lemma bind_assoc {A B C} (m : M A) (f : A -> M B) (g : B -> M C) :
  bind (bind m f) g = bind m (fun a => bind (f a) g).
Proof.
  destruct m as [t [a|e]]; simpl; [|reflexivity].
  destruct (f a) as [t' [b|e]]; simpl; [|reflexivity].
  destruct (g b) as [t'' r]. rewrite app_assoc. reflexivity.
Qed.

Lemma lift_Return {A} (a : A) : lift (Return a) = ret a.
Proof. reflexivity. Qed.

Lemma lift_Throw {A} (e : JSError) : @lift A (Throw e) = throw e.
Proof. reflexivity. Qed.

Lemma try_catch_ret {A} (a : A) (h : JSError -> M A) :
  try_catch (ret a) h = ret a.
Proof. reflexivity. Qed.

Lemma try_catch_throw {A} (e : JSError) (h : JSError -> M A) :
  try_catch (throw e) h = h e.
Proof. unfold try_catch, throw. destruct (h e). reflexivity. Qed.

(* ================================================================== *)
(** ** The handler against the validator of the specification *)

Lemma content_type_or_empty (v : string) :
  (if JSString.Boolean v then v else "") = v.
Proof. destruct v; reflexivity. Qed.

Lemma post_current_url_request (request : Request) (b : JSValue) :
  json request = Return b -> request_post_url request = post_current_url b.
Proof. unfold request_post_url. intros ->. reflexivity. Qed.

Lemma Array_includes_VALID_ACTIONS (a : string) :
  Array_includes VALID_ACTIONS a
  = String.eqb a "postPublished" || String.eqb a "postUpdated".
Proof.
  unfold Array_includes, VALID_ACTIONS. cbn [existsb].
  rewrite orb_false_r. reflexivity.
Qed.

Section Handler.

Context {rt : Runtime}.

(** The tail of [handleRequest] is [deriveUrls] followed by the
    dispatch. *)
Lemma lift_URL_new_deriveUrls (action zoneID apiToken : option string)
    (v : JSValue) :
  bind (lift (URL_new v)) (fun postURL =>
    let rootURL := protocol postURL ++ "//" ++ host postURL in
    let urlsToPurge := getUrlsToPurge action rootURL (href postURL) in
    bind (purgeURL urlsToPurge zoneID apiToken) (fun response =>
      if ok response
      then handlePurgeSuccess zoneID urlsToPurge
      else handlePurgeFailure response zoneID urlsToPurge))
  = match deriveUrls action v with
    | Return urls => dispatch urls zoneID apiToken
    | Throw e => throw e
    end.
Proof.
  unfold deriveUrls.
  destruct (URL_new v) as [postURL|e].
  - rewrite lift_Return, bind_ret. reflexivity.
  - reflexivity.
Qed.

(** [handleRequest] answers with the first failing check of the
    specification's list and, when none fails, goes on to the purge. *)
Lemma handleRequest_first_failure (request : Request) (env : Env) :
  handleRequest request env
  = match first_failure request env with
    | Some c =>
        (check_console request c,
         Return (new_Response (check_message c) (check_status c)))
    | None => after_validation request env
    end.
Proof.
  unfold handleRequest, first_failure, check_order, after_validation.
  cbn [find check_holds].
  (* 1. method *)
  unfold validateRequest.
  destruct (String.eqb (method request) "POST"); cbn [negb]; [|reflexivity].
  (* 2. content type *)
  replace (JSString.includes "application/json"
             match Headers_get "content-type" (headers request) with
             | Some v => if JSString.Boolean v then v else ""
             | None => ""
             end)
    with (match Headers_get "content-type" (headers request) with
          | Some v => JSString.includes "application/json" v
          | None => false
          end)
    by (destruct (Headers_get "content-type" (headers request));
        [rewrite content_type_or_empty|]; reflexivity).
  destruct (match Headers_get "content-type" (headers request) with
            | Some v => JSString.includes "application/json" v
            | None => false
            end); cbn [negb]; [|reflexivity].
  (* 3, 4. zone *)
  fold (path_segments (pathname (url request))).
  fold (request_zoneID request). fold (request_action request).
  unfold validateZoneID.
  rewrite truthy_str_nonempty.
  destruct (nonempty (request_zoneID request)) eqn:Hz; cbn [negb];
    [|reflexivity].
  destruct (request_zoneID request) as [z|]; [clear Hz|discriminate Hz].
  cbn [JSString.template]. rewrite zone_regex_test_patternb.
  destruct (matches_zone_patternb z); cbn [negb]; [|reflexivity].
  (* 5, 6. action *)
  unfold validateAction.
  rewrite truthy_str_nonempty.
  destruct (nonempty (request_action request)) eqn:Ha; cbn [negb];
    [|reflexivity].
  destruct (request_action request) as [a|]; [clear Ha|discriminate Ha].
  rewrite Array_includes_VALID_ACTIONS.
  destruct (String.eqb a "postPublished" || String.eqb a "postUpdated");
    cbn [negb]; [|reflexivity].
  (* 7. token *)
  unfold validateApiToken.
  rewrite truthy_str_nonempty.
  destruct (nonempty (CF_API_TOKEN env)); cbn [negb];
    [rewrite bind_ret|reflexivity].
  (* 8. body parses *)
  unfold parseWebhookBody, request_post_url.
  destruct (json request) as [b|e] eqn:Hj; cbn [negb];
    [rewrite lift_Return, bind_ret, try_catch_ret, bind_ret
    |rewrite lift_Throw, bind_throw, try_catch_throw;
     unfold check_console; rewrite Hj; reflexivity].
  (* 9. body has post.current.url *)
  unfold validateWebhookBody, read_post_current_url.
  destruct (JS.truthy (post_current_url b)) eqn:Hu; cbn [negb];
    [rewrite bind_ret|reflexivity].
  destruct (post_current_url b) as [v|]; [|discriminate Hu].
  rewrite bind_ret. apply lift_URL_new_deriveUrls.
Qed.

(** The dispatch sends one call and answers from its reply. *)
Lemma dispatch_reply (urls : list string) (zoneID apiToken : option string) :
  dispatch urls zoneID apiToken
  = match fetch_reply (purge_call urls zoneID apiToken) with
    | Return response =>
        let h := if ok response
                 then handlePurgeSuccess zoneID urls
                 else handlePurgeFailure response zoneID urls in
        (outbound (purge_call urls zoneID apiToken) :: trace h, outcome h)
    | Throw e => ([outbound (purge_call urls zoneID apiToken)], Throw e)
    end.
Proof.
  unfold dispatch, purgeURL, fetch. fold (purge_call urls zoneID apiToken).
  rewrite bind_assoc, bind_emit.
  destruct (fetch_reply (purge_call urls zoneID apiToken)) as [response|e].
  - rewrite lift_Return, bind_ret. reflexivity.
  - reflexivity.
Qed.

Lemma handlePurgeSuccess_calls (zoneID : option string) (urls : list string) :
  fetch_calls (trace (handlePurgeSuccess zoneID urls)) = []
  /\ outcome (handlePurgeSuccess zoneID urls) = Return (new_Response "OK" 200).
Proof. split; reflexivity. Qed.

(** The three ways [handlePurgeFailure] can go. *)
Lemma handlePurgeFailure_cases (response : Response) (zoneID : option string)
    (urls : list string) :
  (exists e,
      Response_text response = Throw e
      /\ handlePurgeFailure response zoneID urls = ([], Throw e))
  \/ (exists errorText,
         Response_text response = Return errorText
         /\ handlePurgeFailure response zoneID urls
            = ([purge_failure_line response zoneID urls errorText],
               Response_new ("Cache purge failed: " ++ statusText response)
                            (status response))).
Proof.
  unfold handlePurgeFailure.
  destruct (Response_text response) as [errorText|e].
  - right. exists errorText. split; [reflexivity|].
    rewrite lift_Return, bind_ret, bind_emit. unfold lift, trace, outcome.
    reflexivity.
  - left. exists e. split; reflexivity.
Qed.

Lemma handlePurgeFailure_calls (response : Response) (zoneID : option string)
    (urls : list string) :
  fetch_calls (trace (handlePurgeFailure response zoneID urls)) = []
  /\ forall call,
       ~ In (outbound call) (trace (handlePurgeFailure response zoneID urls)).
Proof.
  destruct (handlePurgeFailure_cases response zoneID urls)
    as [(e & _ & ->)|(errorText & _ & ->)]; cbn; split; try reflexivity;
    intros call H; repeat (destruct H as [H|H]; try discriminate H); exact H.
Qed.

(** Whatever the network answers, the dispatch makes one call. *)
Lemma dispatch_fetch_calls (urls : list string) (zoneID apiToken : option string) :
  fetch_calls (trace (dispatch urls zoneID apiToken))
  = [purge_call urls zoneID apiToken].
Proof.
  rewrite dispatch_reply.
  destruct (fetch_reply (purge_call urls zoneID apiToken)) as [response|e];
    [|reflexivity].
  destruct (ok response); [reflexivity|].
  cbv zeta. unfold trace at 1. cbn [fst fetch_calls].
  rewrite (proj1 (handlePurgeFailure_calls response zoneID urls)).
  reflexivity.
Qed.

(** The only outbound event of a dispatch is its purge call. *)
Lemma dispatch_outbound (urls : list string) (zoneID apiToken : option string)
    (call : FetchCall) :
  In (outbound call) (trace (dispatch urls zoneID apiToken)) ->
  call = purge_call urls zoneID apiToken.
Proof.
  rewrite dispatch_reply.
  destruct (fetch_reply (purge_call urls zoneID apiToken)) as [response|e].
  - destruct (ok response).
    + cbn. intros [H|[H|[]]]; try discriminate H; injection H; auto.
    + cbv zeta. unfold trace at 1. cbn [fst]. intros [H|H].
      * injection H; auto.
      * exfalso.
        exact (proj2 (handlePurgeFailure_calls response zoneID urls) call H).
  - cbn. intros [H|[]]. injection H; auto.
Qed.

(** A request that passes validation has a zone, an action, a token
    and a post URL. *)
Lemma passes_validation_inv (request : Request) (env : Env) :
  passes_validation request env ->
  exists z a tok v,
    request_zoneID request = Some z /\ matches_zone_pattern z
    /\ request_action request = Some a
    /\ (a = "postPublished" \/ a = "postUpdated")
    /\ CF_API_TOKEN env = Some tok /\ tok <> ""
    /\ request_post_url request = Some v /\ JS.truthy (Some v) = true.
Proof.
  unfold passes_validation, first_failure, check_order.
  cbn [find check_holds].
  repeat match goal with
         | |- (if negb ?b then _ else _) = None -> _ =>
             destruct b eqn:?; cbn [negb]; [|discriminate]
         end.
  intros _.
  destruct (request_zoneID request) as [z|]; [|discriminate].
  destruct (request_action request) as [a|]; [|discriminate].
  destruct (CF_API_TOKEN env) as [tok|]; [|discriminate].
  destruct (request_post_url request) as [v|]; [|discriminate].
  exists z, a, tok, v.
  repeat match goal with |- _ /\ _ => split end;
    try reflexivity; try assumption.
  - apply matches_zone_patternb_spec. assumption.
  - match goal with H : (_ || _) = true |- _ =>
      apply orb_true_iff in H; destruct H as [H|H];
      apply String.eqb_eq in H; auto end.
  - match goal with H : nonempty (Some tok) = true |- _ =>
      cbn in H; intros ->; discriminate H end.
Qed.

End Handler.

(* ================================================================== *)
(** ** Splitting a path *)

Lemma string_app_assoc (a b c : string) : (a ++ b) ++ c = a ++ (b ++ c).
Proof. induction a as [|x a IH]; simpl; [reflexivity | rewrite IH; reflexivity]. Qed.

Lemma string_app_empty_r (a : string) : a ++ "" = a.
Proof. induction a as [|x a IH]; simpl; [reflexivity | rewrite IH; reflexivity]. Qed.

(** A piece without separator is read into the current piece. *)
Lemma split_aux_piece (cur piece rest : string) :
  slash_free piece ->
  JSString.split_aux "/" cur (piece ++ rest)
  = JSString.split_aux "/" (cur ++ piece) rest.
Proof.
  revert cur. induction piece as [|c piece IH]; intros cur Hfree.
  - rewrite string_app_empty_r. reflexivity.
  - simpl. destruct (Ascii.eqb c "/") eqn:Hc.
    + apply Ascii.eqb_eq in Hc. subst c. exfalso. apply Hfree. left. reflexivity.
    + rewrite IH.
      * rewrite string_app_assoc. reflexivity.
      * intros Hin. apply Hfree. right. exact Hin.
Qed.

Lemma split_aux_join (cur piece : string) (pieces : list string) :
  Forall slash_free (piece :: pieces) ->
  JSString.split_aux "/" cur (JSString.join "/" (piece :: pieces))
  = (cur ++ piece) :: pieces.
Proof.
  revert cur piece. induction pieces as [|q pieces IH]; intros cur piece Hfree.
  - cbn [JSString.join].
    rewrite <- (string_app_empty_r piece) at 1.
    rewrite split_aux_piece by (inversion Hfree; assumption).
    reflexivity.
  - change (JSString.join "/" (piece :: q :: pieces))
      with (piece ++ String "/" (JSString.join "/" (q :: pieces))).
    rewrite split_aux_piece by (inversion Hfree; assumption).
    cbn [JSString.split_aux]. rewrite Ascii.eqb_refl.
    rewrite IH by (inversion Hfree; assumption).
    reflexivity.
Qed.

(** Splitting undoes joining with slashes. *)
Lemma split_join (pieces : list string) :
  pieces <> [] -> Forall slash_free pieces ->
  JSString.split "/" (JSString.join "/" pieces) = pieces.
Proof.
  destruct pieces as [|piece pieces]; [congruence|].
  intros _ Hfree. unfold JSString.split. rewrite split_aux_join by exact Hfree.
  reflexivity.
Qed.

(** The segments of a path are its non-empty pieces. *)
Lemma path_segments_join (pieces : list string) :
  pieces <> [] -> Forall slash_free pieces ->
  path_segments (JSString.join "/" pieces) = filter JSString.Boolean pieces.
Proof.
  intros Hne Hfree. unfold path_segments. rewrite split_join; auto.
Qed.

(** The handler reads a request through its method, its headers, the
    first two segments of its path and its body. *)
Lemma handleRequest_ext `{Runtime} (request1 request2 : Request) (env : Env) :
  method request1 = method request2 ->
  headers request1 = headers request2 ->
  request_zoneID request1 = request_zoneID request2 ->
  request_action request1 = request_action request2 ->
  json request1 = json request2 ->
  handleRequest request1 env = handleRequest request2 env.
Proof.
  intros Hm Hh Hz Ha Hj.
  unfold handleRequest, validateRequest, parseWebhookBody.
  fold (path_segments (pathname (url request1))).
  fold (path_segments (pathname (url request2))).
  fold (request_zoneID request1). fold (request_zoneID request2).
  fold (request_action request1). fold (request_action request2).
  rewrite Hm, Hh, Hz, Ha, Hj. reflexivity.
Qed.

(** [find] returns the first element that satisfies the test. *)
Lemma find_first {A} (f : A -> bool) (l : list A) (x : A) :
  find f l = Some x ->
  exists before after,
    l = (before ++ x :: after)%list
    /\ f x = true /\ forall y, In y before -> f y = false.
Proof.
  induction l as [|a l IH]; simpl; [discriminate|].
  destruct (f a) eqn:Hfa.
  - intros [= ->]. exists [], l. repeat split; [exact Hfa | intros y []].
  - intros Hfind. destruct (IH Hfind) as (before & after & -> & Hx & Hbefore).
    exists (a :: before), after. repeat split; [exact Hx|].
    intros y [<-|Hy]; [exact Hfa | exact (Hbefore y Hy)].
Qed.

(** The check [first_failure] names fails, and every check listed
    before it holds. *)
Lemma first_failure_first (request : Request) (env : Env) (c : Check) :
  first_failure request env = Some c ->
  exists before after,
    check_order = (before ++ c :: after)%list
    /\ check_holds request env c = false
    /\ forall c', In c' before -> check_holds request env c' = true.
Proof.
  intros Hff. destruct (find_first _ _ Hff) as (before & after & Ho & Hc & Hb).
  exists before, after. repeat split; [exact Ho | |].
  - apply negb_true_iff. exact Hc.
  - intros c' Hin. apply negb_false_iff. exact (Hb c' Hin).
Qed.

(* ================================================================== *)
(** ** Properties of the specification *)

Section Properties.

Context {rt : Runtime}.

(** C2: the handler performs the nine validation checks in the order
    method (405), content type (400), zone present (400), zone format
    (400), action present (400), action recognised (400), token
    configured (500), body parses (400), body has post.current.url
    (400); it returns the response of the first check that fails and
    shows the effects of that check alone; when none fails it goes on
    to the purge. *)
Theorem C2_validation_order (request : Request) (env : Env) :
  check_order
    = [ MethodIsPost; ContentTypeIsJson; ZonePresent; ZoneFormat;
        ActionPresent; ActionRecognised; TokenConfigured; BodyParses;
        BodyHasPostUrl ]
  /\ map check_status check_order
     = [405; 400; 400; 400; 400; 400; 500; 400; 400]
  /\ match first_failure request env with
     | Some c =>
         handleRequest request env
         = (check_console request c,
            Return (new_Response (check_message c) (check_status c)))
         /\ fetch_calls (trace (handleRequest request env)) = []
     | None => handleRequest request env = after_validation request env
     end.
Proof.
  split; [reflexivity|]. split; [reflexivity|].
  rewrite handleRequest_first_failure.
  destruct (first_failure request env) as [c|]; [|reflexivity].
  split; [reflexivity|].
  destruct c; cbn; try reflexivity.
  destruct (json request); reflexivity.
Qed.

(** C4: a zone identifier that is not 32 hexadecimal digits (wrong
    length, a character that is no hexadecimal digit, empty or absent)
    is answered 400; a zone identifier of 32 hexadecimal digits, in
    lower or upper case, passes the check. *)
Theorem C4_zone_format :
  (forall z : string,
      ~ matches_zone_pattern z ->
      exists r, validateZoneID (Some z) = Some r /\ status r = 400)
  /\ (exists r, validateZoneID None = Some r /\ status r = 400)
  /\ (forall z : string,
         matches_zone_pattern z -> validateZoneID (Some z) = None).
Proof.
  split; [|split].
  - intros z Hno. unfold validateZoneID.
    destruct (JS.truthy_str (Some z)); cbn [negb].
    + cbn [JSString.template]. rewrite zone_regex_test_patternb.
      destruct (matches_zone_patternb z) eqn:Hm.
      * exfalso. apply Hno. apply matches_zone_patternb_spec. exact Hm.
      * cbn [negb]. eexists. split; reflexivity.
    + eexists. split; reflexivity.
  - eexists. split; reflexivity.
  - intros z Hm. apply matches_zone_patternb_spec in Hm.
    unfold validateZoneID. cbn [JSString.template].
    rewrite zone_regex_test_patternb, Hm.
    destruct z; [discriminate Hm | reflexivity].
Qed.

(** C5: a request whose method is not POST is answered 405, whatever
    its path, its headers, its body and the environment. *)
Theorem C5_non_post_is_405 (request : Request) (env : Env) :
  method request <> "POST" ->
  exists r,
    outcome (handleRequest request env) = Return r /\ status r = 405.
Proof.
  intros Hm. unfold handleRequest, validateRequest.
  destruct (String.eqb (method request) "POST") eqn:E.
  - apply String.eqb_eq in E. contradiction.
  - cbn. eexists. split; reflexivity.
Qed.

(** C3: for the post URL https://example.com/my-post/, whose scheme is
    https and whose host is example.com, the derived list for
    postPublished is the six site-wide URLs followed by the root
    https://example.com, and for postUpdated the same six followed by
    the post URL. *)
Theorem C3_deriveUrls_example (u : URL) :
  URL_new (JStr "https://example.com/my-post/") = Return u ->
  protocol u = "https:" ->
  host u = "example.com" ->
  href u = "https://example.com/my-post/" ->
  deriveUrls (Some "postPublished") (JStr "https://example.com/my-post/")
  = Return [ "https://example.com/sitemap.xml";
             "https://example.com/sitemap-posts.xml";
             "https://example.com/sitemap-pages.xml";
             "https://example.com/sitemap-tags.xml";
             "https://example.com/sitemap-news/";
             "https://example.com/rss/";
             "https://example.com" ]
  /\ deriveUrls (Some "postUpdated") (JStr "https://example.com/my-post/")
     = Return [ "https://example.com/sitemap.xml";
                "https://example.com/sitemap-posts.xml";
                "https://example.com/sitemap-pages.xml";
                "https://example.com/sitemap-tags.xml";
                "https://example.com/sitemap-news/";
                "https://example.com/rss/";
                "https://example.com/my-post/" ].
Proof.
  intros Hu Hp Hh Hr. unfold deriveUrls.
  rewrite Hu, Hp, Hh, Hr. split; reflexivity.
Qed.

(** The run of a request that passed validation either stops at the
    [URL] constructor or is the dispatch of the derived list. *)
Lemma valid_run (request : Request) (env : Env) :
  passes_validation request env ->
  exists v,
    request_post_url request = Some v
    /\ handleRequest request env
       = match deriveUrls (request_action request) v with
         | Return urls =>
             dispatch urls (request_zoneID request) (CF_API_TOKEN env)
         | Throw e => throw e
         end.
Proof.
  intros Hpass.
  destruct (passes_validation_inv Hpass)
    as (z & a & tok & v & _ & _ & _ & _ & _ & _ & Hv & _).
  exists v. split; [exact Hv|].
  rewrite handleRequest_first_failure, Hpass.
  unfold after_validation. rewrite Hv. reflexivity.
Qed.

(** The reply to the purge call of a valid run decides how it goes on. *)
Lemma valid_run_reply (request : Request) (env : Env) (call : FetchCall)
    (response : Response) :
  passes_validation request env ->
  In (outbound call) (trace (handleRequest request env)) ->
  fetch_reply call = Return response ->
  exists urls,
    handleRequest request env
    = let h := if ok response
               then handlePurgeSuccess (request_zoneID request) urls
               else handlePurgeFailure response (request_zoneID request) urls in
      (outbound call :: trace h, outcome h).
Proof.
  intros Hpass Hin Hreply.
  destruct (valid_run Hpass) as (v & _ & Hrun).
  rewrite Hrun in Hin |- *.
  destruct (deriveUrls (request_action request) v) as [urls|e];
    [|destruct Hin].
  apply dispatch_outbound in Hin. subst call.
  exists urls. rewrite dispatch_reply, Hreply. reflexivity.
Qed.

(** The constructor builds [new_Response] or throws one of its two
    errors. *)
Lemma Response_new_cases (b : string) (st : Z) :
  Response_new b st = Return (new_Response b st)
  \/ exists e,
       (e = status_out_of_range \/ e = body_with_null_body_status)
       /\ Response_new b st = Throw e.
Proof.
  unfold Response_new.
  destruct ((200 <=? st) && (st <=? 599)); cbn [negb].
  - destruct (null_body_status st); [right|left; reflexivity].
    eexists. split; [right; reflexivity | reflexivity].
  - right. eexists. split; [left; reflexivity | reflexivity].
Qed.

(** The four statuses the handler writes out pass the constructor. *)
Lemma Response_new_constant (b : string) (st : Z) :
  In st [HTTP_OK; HTTP_BAD_REQUEST; HTTP_METHOD_NOT_ALLOWED; HTTP_INTERNAL_ERROR] ->
  Response_new b st = Return (new_Response b st).
Proof.
  intros [<-|[<-|[<-|[<-|[]]]]]; reflexivity.
Qed.

(** A status the [Response] constructor accepts with a body. *)
Lemma Response_new_accepts (b : string) (st : Z) :
  200 <= st <= 599 ->
  null_body_status st = false ->
  Response_new b st = Return (new_Response b st).
Proof.
  intros [Hlo Hhi] Hnull. unfold Response_new. rewrite Hnull.
  apply Z.leb_le in Hlo, Hhi. rewrite Hlo, Hhi. reflexivity.
Qed.

(** C6: when a request passes all validation and the purge call it
    sends is answered with an ok response, the handler responds with
    status 200 and body OK. *)
Theorem C6_purge_success (request : Request) (env : Env) (call : FetchCall)
    (response : Response) :
  passes_validation request env ->
  In (outbound call) (trace (handleRequest request env)) ->
  fetch_reply call = Return response ->
  ok response = true ->
  exists r,
    outcome (handleRequest request env) = Return r
    /\ status r = 200 /\ body r = "OK".
Proof.
  intros Hpass Hin Hreply Hok.
  destruct (@valid_run_reply request env call response Hpass Hin Hreply)
    as (urls & Hrun).
  rewrite Hrun, Hok.
  eexists. repeat split.
Qed.

(** C1, as the code has it: when a request passes all validation and
    the purge call it sends is answered with a response that is not ok,
    whose body can be read and whose status the Response constructor
    accepts with a body (a status from 200 to 599 that is no null body
    status), the handler responds with the provider's status code and,
    as body, the provider's status text after the prefix
    "Cache purge failed: ". *)
Theorem C1_purge_failure (request : Request) (env : Env) (call : FetchCall)
    (response : Response) (errorText : string) :
  passes_validation request env ->
  In (outbound call) (trace (handleRequest request env)) ->
  fetch_reply call = Return response ->
  ok response = false ->
  Response_text response = Return errorText ->
  200 <= status response <= 599 ->
  null_body_status (status response) = false ->
  exists r,
    outcome (handleRequest request env) = Return r
    /\ status r = status response
    /\ body r = "Cache purge failed: " ++ statusText response.
Proof.
  intros Hpass Hin Hreply Hok Htext Hrange Hnull.
  destruct (@valid_run_reply request env call response Hpass Hin Hreply)
    as (urls & Hrun).
  rewrite Hrun, Hok. cbv zeta. unfold outcome at 1. cbn [snd].
  destruct (handlePurgeFailure_cases response (request_zoneID request) urls)
    as [(e & He & _)|(errorText' & _ & ->)]; [congruence|].
  unfold outcome. cbn [snd].
  rewrite (Response_new_accepts _ Hrange Hnull).
  eexists. repeat split.
Qed.

(** C8, as the code has it: for a request that passes all validation
    and whose post URL the URL constructor accepts, the handler makes
    exactly one outbound call, whatever the network answers: a POST to
    the purge endpoint of the zone, with the JSON content type and the
    bearer token as headers, and the derived list under [files] as JSON
    body. *)
Theorem C8_single_purge_call (request : Request) (env : Env) (v : JSValue)
    (urls : list string) :
  passes_validation request env ->
  request_post_url request = Some v ->
  deriveUrls (request_action request) v = Return urls ->
  exists zoneID apiToken,
    request_zoneID request = Some zoneID
    /\ CF_API_TOKEN env = Some apiToken
    /\ fetch_calls (trace (handleRequest request env))
       = [ {| fetch_url := "https://api.cloudflare.com/client/v4/zones/"
                            ++ zoneID ++ "/purge_cache";
              fetch_method := "POST";
              fetch_headers :=
                [ ("Content-Type", "application/json");
                  ("Authorization", "Bearer " ++ apiToken) ];
              fetch_body :=
                JSON.stringify (JObj [("files", JArr (map JStr urls))]) |} ].
Proof.
  intros Hpass Hv Hurls.
  destruct (passes_validation_inv Hpass)
    as (z & a & tok & v' & Hz & _ & _ & _ & Htok & _ & _ & _).
  exists z, tok. split; [exact Hz|]. split; [exact Htok|].
  destruct (valid_run Hpass) as (v'' & Hv'' & Hrun).
  rewrite Hv in Hv''. injection Hv'' as <-.
  rewrite Hrun, Hurls, dispatch_fetch_calls, Hz, Htok. reflexivity.
Qed.

(** C7: for two requests that pass validation with the same action and
    the same post URL, whatever their zones, tokens, headers and other
    body fields, the list of URLs the handler purges is the same: it
    is [deriveUrls] of the action and the post URL, and the bodies of
    the outbound calls coincide. *)
Theorem C7_urls_depend_on_action_and_post_url
    (request1 request2 : Request) (env1 env2 : Env)
    (action : option string) (v : JSValue) :
  passes_validation request1 env1 ->
  passes_validation request2 env2 ->
  request_action request1 = action ->
  request_action request2 = action ->
  request_post_url request1 = Some v ->
  request_post_url request2 = Some v ->
  fetch_calls (trace (handleRequest request1 env1))
  = match deriveUrls action v with
    | Return urls =>
        [purge_call urls (request_zoneID request1) (CF_API_TOKEN env1)]
    | Throw _ => []
    end
  /\ fetch_calls (trace (handleRequest request2 env2))
     = match deriveUrls action v with
       | Return urls =>
           [purge_call urls (request_zoneID request2) (CF_API_TOKEN env2)]
       | Throw _ => []
       end
  /\ map fetch_body (fetch_calls (trace (handleRequest request1 env1)))
     = map fetch_body (fetch_calls (trace (handleRequest request2 env2))).
Proof.
  intros Hp1 Hp2 Ha1 Ha2 Hv1 Hv2.
  assert (Hboth : forall request env,
             passes_validation request env ->
             request_action request = action ->
             request_post_url request = Some v ->
             fetch_calls (trace (handleRequest request env))
             = match deriveUrls action v with
               | Return urls =>
                   [purge_call urls (request_zoneID request) (CF_API_TOKEN env)]
               | Throw _ => []
               end).
  { intros request env Hp Ha Hv.
    destruct (valid_run Hp) as (v' & Hv' & Hrun).
    rewrite Hv in Hv'. injection Hv' as <-.
    rewrite Hrun, Ha.
    destruct (deriveUrls action v) as [urls|e]; [|reflexivity].
    apply dispatch_fetch_calls. }
  rewrite (Hboth _ _ Hp1 Ha1 Hv1), (Hboth _ _ Hp2 Ha2 Hv2).
  split; [reflexivity|]. split; [reflexivity|].
  destruct (deriveUrls action v); reflexivity.
Qed.

(** C10: when a request passes every validation check and its
    post.current.url is a string the URL constructor rejects, the
    handler ends with the constructor's exception: it returns no
    response, writes nothing to the console and makes no outbound
    call. *)
Theorem C10_unparseable_post_url_throws (request : Request) (env : Env)
    (s : string) (e : JSError) :
  passes_validation request env ->
  request_post_url request = Some (JStr s) ->
  URL_new (JStr s) = Throw e ->
  handleRequest request env = ([], Throw e)
  /\ s <> ""
  /\ forall r, outcome (handleRequest request env) <> Return r.
Proof.
  intros Hpass Hv Hthrow.
  assert (Hrun : handleRequest request env = ([], Throw e)).
  { destruct (valid_run Hpass) as (v' & Hv' & Hrun).
    rewrite Hv in Hv'. injection Hv' as <-.
    rewrite Hrun. unfold deriveUrls. rewrite Hthrow. reflexivity. }
  split; [exact Hrun|]. split.
  - destruct (passes_validation_inv Hpass)
      as (_ & _ & _ & v' & _ & _ & _ & _ & _ & _ & Hv' & Htruthy).
    rewrite Hv in Hv'. injection Hv' as <-.
    intros ->. discriminate Htruthy.
  - intros r. rewrite Hrun. discriminate.
Qed.

(** C9: the zone and the action are the first two non-empty pieces of
    the path; pieces left empty by repeated slashes are skipped and
    what follows the action is ignored, so a request to a path with
    further segments is handled exactly as the request to
    /zone/action. *)
Theorem C9_extra_segments_ignored (request1 request2 : Request) (env : Env)
    (pieces : list string) (zoneID action : string) (extra : list string) :
  Forall slash_free pieces ->
  pathname (url request1) = JSString.join "/" pieces ->
  filter JSString.Boolean pieces = zoneID :: action :: extra ->
  pathname (url request2) = "/" ++ zoneID ++ "/" ++ action ->
  method request1 = method request2 ->
  headers request1 = headers request2 ->
  json request1 = json request2 ->
  request_zoneID request1 = Some zoneID
  /\ request_action request1 = Some action
  /\ handleRequest request1 env = handleRequest request2 env.
Proof.
  intros Hfree Hp1 Hseg Hp2 Hm Hh Hj.
  assert (Hne : pieces <> []) by (intros ->; discriminate Hseg).
  assert (Hs1 : path_segments (pathname (url request1))
                = zoneID :: action :: extra).
  { rewrite Hp1, path_segments_join by assumption. exact Hseg. }
  assert (Hin : forall x, In x [zoneID; action] ->
                          slash_free x /\ JSString.Boolean x = true).
  { intros x Hx.
    assert (Hx' : In x (filter JSString.Boolean pieces)).
    { rewrite Hseg. destruct Hx as [<-|[<-|[]]]; simpl; auto. }
    apply filter_In in Hx'. destruct Hx' as [Hx' Hb].
    split; [|exact Hb]. rewrite Forall_forall in Hfree. exact (Hfree x Hx'). }
  destruct (Hin zoneID) as [Hzf Hzb]; [simpl; auto|].
  destruct (Hin action) as [Haf Hab]; [simpl; auto|].
  assert (Hs2 : path_segments (pathname (url request2)) = [zoneID; action]).
  { rewrite Hp2.
    change ("/" ++ zoneID ++ "/" ++ action)
      with (JSString.join "/" [""; zoneID; action]).
    rewrite path_segments_join.
    - cbn [filter JSString.Boolean]. rewrite Hzb, Hab. reflexivity.
    - discriminate.
    - repeat constructor; auto. intros []. }
  unfold request_zoneID, request_action. rewrite Hs1.
  split; [reflexivity|]. split; [reflexivity|].
  apply handleRequest_ext; try assumption;
    unfold request_zoneID, request_action; rewrite Hs1, Hs2; reflexivity.
Qed.

End Properties.

(* ================================================================== *)
(** ** The properties on concrete requests *)

Lemma slash_free_forallb (s : string) :
  forallb (fun c => negb (Ascii.eqb c "/")) (list_ascii_of_string s) = true ->
  slash_free s.
Proof.
  intros Hall Hin. rewrite forallb_forall in Hall.
  specialize (Hall _ Hin). discriminate Hall.
Qed.


Example run_accepted :
  @handleRequest Examples.accepting
     (Examples.webhook "postUpdated" Examples.post_url) Examples.env
  = ([ outbound Examples.updated_call;
       console_log
         ["🧹 Successfully purged: Zone: 0123456789abcdef0123456789ABCDEF - URLs: "
            ++ JSString.join ", " (Examples.site_urls ++ [Examples.post_url])] ],
     Return (new_Response "OK" 200)).
Proof. reflexivity. Qed.

Example run_missing_token :
  @handleRequest Examples.accepting
     (Examples.webhook "postUpdated" Examples.post_url)
     {| CF_API_TOKEN := None |}
  = ([ console_error ["Missing CF_API_TOKEN in environment variables"] ],
     Return (new_Response ERROR_MISSING_API_TOKEN 500)).
Proof. reflexivity. Qed.

Example run_not_modified :
  @handleRequest Examples.unchanged
     (Examples.webhook "postUpdated" Examples.post_url) Examples.env
  = ([ outbound Examples.updated_call;
       purge_failure_line Examples.not_modified (Some Examples.zone)
         (Examples.site_urls ++ [Examples.post_url]) "" ],
     Throw body_with_null_body_status).
Proof. reflexivity. Qed.

Example parse_post_url :
  SimpleRuntime.parse Examples.post_url
  = Return {| href := "https://example.com/my-post/";
              protocol := "https:";
              host := "example.com";
              pathname := "/my-post/" |}.
Proof. reflexivity. Qed.

Example parse_no_scheme :
  SimpleRuntime.parse "not a url" = Throw SimpleRuntime.invalid_URL.
Proof. reflexivity. Qed.

Example stringify_files :
  JSON.stringify (JObj [("files", JArr [JStr "https://example.com/rss/";
                                        JStr "https://example.com"])])
  = "{" ++ JSON.quote "files" ++ ":["
        ++ JSON.quote "https://example.com/rss/" ++ ","
        ++ JSON.quote "https://example.com" ++ "]}".
Proof. reflexivity. Qed.

Example headers_get_ignores_case :
  Headers_get "content-type"
    [("Accept", "*/*"); ("Content-Type", "application/json")]
  = Some "application/json".
Proof. reflexivity. Qed.

Example segments_skip_empty :
  path_segments "//a///b/c/" = ["a"; "b"; "c"].
Proof. reflexivity. Qed.

(** C1 as the specification words it fails on the refused purge: the
    body is not the bare status text. *)
Lemma C1_counterexample :
  let request := Examples.webhook "postUpdated" Examples.post_url in
  let run := @handleRequest Examples.refusing request Examples.env in
  passes_validation request Examples.env
  /\ In (outbound Examples.updated_call) (trace run)
  /\ @fetch_reply Examples.refusing Examples.updated_call
     = Return Examples.forbidden
  /\ ok Examples.forbidden = false
  /\ statusText Examples.forbidden = "Forbidden"
  /\ exists r,
       outcome run = Return r
       /\ status r = 403
       /\ body r = "Cache purge failed: Forbidden"
       /\ body r <> statusText Examples.forbidden.
Proof.
  cbv zeta. split; [reflexivity|]. split; [left; reflexivity|].
  split; [reflexivity|]. split; [reflexivity|]. split; [reflexivity|].
  eexists. split; [reflexivity|]. split; [reflexivity|].
  split; [reflexivity|]. discriminate.
Qed.

Lemma C1_witness :
  let request := Examples.webhook "postUpdated" Examples.post_url in
  let run := @handleRequest Examples.refusing request Examples.env in
  exists r,
    outcome run = Return r
    /\ status r = status Examples.forbidden
    /\ body r = "Cache purge failed: " ++ statusText Examples.forbidden.
Proof.
  cbv zeta.
  apply (@C1_purge_failure Examples.refusing
           (Examples.webhook "postUpdated" Examples.post_url) Examples.env
           Examples.updated_call Examples.forbidden "Forbidden").
  - reflexivity.
  - left. reflexivity.
  - reflexivity.
  - reflexivity.
  - reflexivity.
  - cbn. lia.
  - reflexivity.
Defined.

Lemma C3_witness :
  @deriveUrls Examples.accepting (Some "postPublished") (JStr Examples.post_url)
  = Return (Examples.site_urls ++ ["https://example.com"])%list
  /\ @deriveUrls Examples.accepting (Some "postUpdated") (JStr Examples.post_url)
     = Return (Examples.site_urls ++ ["https://example.com/my-post/"])%list.
Proof.
  apply (@C3_deriveUrls_example Examples.accepting
           {| href := "https://example.com/my-post/";
              protocol := "https:";
              host := "example.com";
              pathname := "/my-post/" |});
    reflexivity.
Defined.

Lemma C4_witness :
  (exists r, validateZoneID (Some "not-a-zone") = Some r /\ status r = 400)
  /\ validateZoneID (Some Examples.zone) = None.
Proof.
  destruct C4_zone_format as (Hbad & _ & Hgood).
  split.
  - apply Hbad. intros [Hlen _]. discriminate Hlen.
  - apply Hgood. apply matches_zone_patternb_spec. reflexivity.
Defined.

Lemma C5_witness :
  exists r,
    outcome (@handleRequest Examples.accepting
               {| method := "GET";
                  headers := headers (Examples.webhook "postUpdated" Examples.post_url);
                  url := url (Examples.webhook "postUpdated" Examples.post_url);
                  json := json (Examples.webhook "postUpdated" Examples.post_url) |}
               Examples.env) = Return r
    /\ status r = 405.
Proof.
  apply (@C5_non_post_is_405 Examples.accepting). discriminate.
Defined.

Lemma C6_witness :
  exists r,
    outcome (@handleRequest Examples.accepting
               (Examples.webhook "postUpdated" Examples.post_url)
               Examples.env) = Return r
    /\ status r = 200 /\ body r = "OK".
Proof.
  apply (@C6_purge_success Examples.accepting
           (Examples.webhook "postUpdated" Examples.post_url) Examples.env
           Examples.updated_call Examples.purged).
  - reflexivity.
  - left. reflexivity.
  - reflexivity.
  - reflexivity.
Defined.

Lemma C7_witness :
  map fetch_body
      (fetch_calls (trace (@handleRequest Examples.accepting
                             (Examples.webhook "postUpdated" Examples.post_url)
                             Examples.env)))
  = map fetch_body
      (fetch_calls (trace (@handleRequest Examples.accepting
                             Examples.other_webhook Examples.other_env))).
Proof.
  apply (@C7_urls_depend_on_action_and_post_url Examples.accepting
           (Examples.webhook "postUpdated" Examples.post_url)
           Examples.other_webhook Examples.env Examples.other_env
           (Some "postUpdated") (JStr Examples.post_url));
    reflexivity.
Defined.

(** C8 as the specification words it fails on a webhook whose post URL
    is no URL: the request passes the nine checks and no call is made. *)
Lemma C8_counterexample :
  let request := Examples.webhook "postUpdated" "not a url" in
  passes_validation request Examples.env
  /\ request_post_url request = Some (JStr "not a url")
  /\ @URL_new Examples.accepting (JStr "not a url")
     = Throw SimpleRuntime.invalid_URL
  /\ fetch_calls (trace (@handleRequest Examples.accepting request Examples.env))
     = []
  /\ outcome (@handleRequest Examples.accepting request Examples.env)
     = Throw SimpleRuntime.invalid_URL.
Proof. cbv zeta. repeat split. Qed.

Lemma C8_witness :
  exists zoneID apiToken,
    request_zoneID (Examples.webhook "postUpdated" Examples.post_url)
    = Some zoneID
    /\ CF_API_TOKEN Examples.env = Some apiToken
    /\ fetch_calls (trace (@handleRequest Examples.refusing
                             (Examples.webhook "postUpdated" Examples.post_url)
                             Examples.env))
       = [ {| fetch_url := "https://api.cloudflare.com/client/v4/zones/"
                            ++ zoneID ++ "/purge_cache";
              fetch_method := "POST";
              fetch_headers :=
                [ ("Content-Type", "application/json");
                  ("Authorization", "Bearer " ++ apiToken) ];
              fetch_body :=
                JSON.stringify
                  (JObj [("files",
                          JArr (map JStr (Examples.site_urls
                                            ++ [Examples.post_url])%list))]) |} ].
Proof.
  apply (@C8_single_purge_call Examples.refusing
           (Examples.webhook "postUpdated" Examples.post_url) Examples.env
           (JStr Examples.post_url));
    reflexivity.
Defined.

Lemma C9_witness :
  request_zoneID Examples.long_path_webhook = Some Examples.zone
  /\ request_action Examples.long_path_webhook = Some "postUpdated"
  /\ @handleRequest Examples.accepting Examples.long_path_webhook Examples.env
     = @handleRequest Examples.accepting
         (Examples.webhook "postUpdated" Examples.post_url) Examples.env.
Proof.
  apply (@C9_extra_segments_ignored Examples.accepting
           Examples.long_path_webhook
           (Examples.webhook "postUpdated" Examples.post_url) Examples.env
           [""; Examples.zone; ""; "postUpdated"; "extra"; "segments"]
           Examples.zone "postUpdated" ["extra"; "segments"]);
    try reflexivity.
  repeat constructor; apply slash_free_forallb; reflexivity.
Defined.

Lemma C10_witness :
  let request := Examples.webhook "postPublished" "not a url" in
  @handleRequest Examples.accepting request Examples.env
  = ([], Throw SimpleRuntime.invalid_URL)
  /\ "not a url" <> ""
  /\ forall r,
       outcome (@handleRequest Examples.accepting request Examples.env)
       <> Return r.
Proof.
  cbv zeta.
  apply (@C10_unparseable_post_url_throws Examples.accepting
           (Examples.webhook "postPublished" "not a url") Examples.env
           "not a url" SimpleRuntime.invalid_URL);
    reflexivity.
Defined.

(* ================================================================== *)
(** ** Further properties of the handler *)

Section Runs.

Context {rt : Runtime}.

(** Every run of the handler has one of the five shapes. *)
Lemma handleRequest_Run (request : Request) (env : Env) :
  Run request env (handleRequest request env).
Proof.
  rewrite handleRequest_first_failure.
  destruct (first_failure request env) as [c|] eqn:Hff.
  - apply run_rejected. exact Hff.
  - destruct (passes_validation_inv Hff)
      as (z & a & tok & v & _ & _ & _ & _ & _ & _ & Hv & _).
    unfold after_validation. rewrite Hv.
    destruct (deriveUrls (request_action request) v) as [urls|e] eqn:Hd.
    + rewrite dispatch_reply.
      destruct (fetch_reply _) as [response|e] eqn:Hreply.
      * destruct (ok response) eqn:Hok; cbv zeta.
        -- exact (run_purged Hff Hv Hd Hreply Hok).
        -- destruct (handlePurgeFailure_cases response (request_zoneID request) urls)
             as [(e & He & ->)|(errorText & Ht & ->)]; unfold trace, outcome;
             cbn [fst snd].
           ++ exact (run_reply_unread Hff Hv Hd Hreply Hok He).
           ++ destruct (Response_new_cases
                          ("Cache purge failed: " ++ statusText response)
                          (status response)) as [Hr|(e & _ & Hr)];
                rewrite Hr.
              ** exact (run_refused Hff Hv Hd Hreply Hok Ht Hr).
              ** exact (run_response_refused Hff Hv Hd Hreply Hok Ht Hr).
      * exact (run_network_error Hff Hv Hd Hreply).
    + apply (run_bad_url (v := v)); try assumption.
      unfold deriveUrls in Hd. destruct (URL_new v); [discriminate|].
      congruence.
Qed.

Lemma check_console_no_call (request : Request) (c : Check) :
  fetch_calls (check_console request c) = [].
Proof. destruct c; cbn; try reflexivity. destruct (json request); reflexivity. Qed.

Lemma check_status_values (c : Check) :
  check_status c = 400 \/ check_status c = 405 \/ check_status c = 500.
Proof. destruct c; cbn; auto. Qed.

(** X6: whatever the request, the environment and the platform, the
    handler makes at most one outbound call, and it makes one only
    for a request that passed every validation check. *)
Theorem at_most_one_call_and_only_when_valid (request : Request) (env : Env) :
  (length (fetch_calls (trace (default_fetch request env))) <= 1)%nat
  /\ (fetch_calls (trace (default_fetch request env)) <> [] ->
      passes_validation request env).
Proof.
  unfold default_fetch.
  destruct (handleRequest_Run request env) as
    [ c Hc
    | v e' Hp Hv He
    | v urls e' Hp Hv Hd Hr
    | v urls response Hp Hv Hd Hr Hok
    | v urls response errorText Hp Hv Hd Hr Hok Ht Hn
    | v urls response e' Hp Hv Hd Hr Hok Ht
    | v urls response errorText e' Hp Hv Hd Hr Hok Ht Hn ];
    cbn; try rewrite check_console_no_call; cbn [length];
    (split; [lia | intros Hne; try exact Hp; try (exfalso; apply Hne; reflexivity)]).
Qed.

(** X7: every outbound call the handler makes is a POST to the purge
    endpoint of the zone named in the path, a zone of 32 hexadecimal
    digits, and carries the non-empty token of the environment as
    bearer credential. *)
Theorem outbound_call_is_a_validated_purge (request : Request) (env : Env)
    (call : FetchCall) :
  In (outbound call) (trace (default_fetch request env)) ->
  exists zoneID apiToken,
    request_zoneID request = Some zoneID
    /\ matches_zone_pattern zoneID
    /\ CF_API_TOKEN env = Some apiToken /\ apiToken <> ""
    /\ fetch_url call
       = "https://api.cloudflare.com/client/v4/zones/" ++ zoneID ++ "/purge_cache"
    /\ fetch_method call = "POST"
    /\ fetch_headers call
       = [ ("Content-Type", "application/json");
           ("Authorization", "Bearer " ++ apiToken) ].
Proof.
  unfold default_fetch. intros Hin.
  assert (Hvalid : passes_validation request env
                   /\ exists urls, call = purge_call urls (request_zoneID request)
                                                     (CF_API_TOKEN env)).
  { destruct (handleRequest_Run request env) as
      [ c Hc
    | v e' Hp Hv He
    | v urls e' Hp Hv Hd Hr
    | v urls response Hp Hv Hd Hr Hok
    | v urls response errorText Hp Hv Hd Hr Hok Ht Hn
    | v urls response e' Hp Hv Hd Hr Hok Ht
    | v urls response errorText e' Hp Hv Hd Hr Hok Ht Hn ];
      cbn in Hin.
    - exfalso. destruct c; cbn in Hin; try (destruct (json request); cbn in Hin);
        repeat (destruct Hin as [Hin|Hin]; try discriminate Hin); exact Hin.
    - destruct Hin.
    - destruct Hin as [Hin|[]]. injection Hin as <-. split; [exact Hp|eauto].
    - destruct Hin as [Hin|[Hin|[]]]; [|discriminate Hin].
      injection Hin as <-. split; [exact Hp|eauto].
    - destruct Hin as [Hin|[Hin|[]]]; [|discriminate Hin].
      injection Hin as <-. split; [exact Hp|eauto].
    - destruct Hin as [Hin|[]]. injection Hin as <-. split; [exact Hp|eauto].
    - destruct Hin as [Hin|[Hin|[]]]; [|discriminate Hin].
      injection Hin as <-. split; [exact Hp|eauto]. }
  destruct Hvalid as (Hp & urls & ->).
  destruct (passes_validation_inv Hp)
    as (z & a & tok & v & Hz & Hzm & _ & _ & Htok & Hne & _ & _).
  exists z, tok. rewrite Hz, Htok.
  repeat match goal with |- _ /\ _ => split end;
    try reflexivity; assumption.
Qed.

Lemma check_console_errors_only (request : Request) (c : Check)
    (args : list string) :
  ~ In (console_log args) (check_console request c).
Proof.
  destruct c; cbn; try (destruct (json request); cbn);
    intros H; repeat (destruct H as [H|H]; try discriminate H); exact H.
Qed.

(** When the constructor throws, the status is out of range or is a
    null body status. *)
Lemma Response_new_throws (b : string) (st : Z) (e : JSError) :
  Response_new b st = Throw e ->
  (~ 200 <= st <= 599 /\ e = status_out_of_range)
  \/ (200 <= st <= 599 /\ null_body_status st = true
      /\ e = body_with_null_body_status).
Proof.
  unfold Response_new.
  destruct (200 <=? st) eqn:Hlo; destruct (st <=? 599) eqn:Hhi; cbn [andb negb];
    try (intros [= <-]; left; split; [|reflexivity];
         first [apply Z.leb_gt in Hlo | apply Z.leb_gt in Hhi]; lia).
  apply Z.leb_le in Hlo, Hhi.
  destruct (null_body_status st); [|discriminate].
  intros [= <-]. right. repeat split; assumption.
Qed.

(** X8: the handler throws only what the platform throws at it.  When
    a run ends in an exception, the request had passed every check (so
    its body did parse) and the exception is one of four: that of the
    URL constructor, before any call or console output; that of the
    rejected [fetch], after the one call; that of [response.text()] on
    a reply that is not ok, after the one call; or that of the
    Response constructor, which refuses the status of a reply that is
    not ok (outside 200..599, or a null body status), after the one
    call and the line on the error console. *)
Theorem exceptions_come_from_the_platform (request : Request) (env : Env)
    (e : JSError) :
  outcome (default_fetch request env) = Throw e ->
  passes_validation request env
  /\ (exists b, json request = Return b)
  /\ ((exists v, request_post_url request = Some v /\ URL_new v = Throw e
                 /\ trace (default_fetch request env) = [])
      \/ (exists call, fetch_reply call = Throw e
                       /\ trace (default_fetch request env) = [outbound call])
      \/ (exists call response,
             fetch_reply call = Return response
             /\ ok response = false
             /\ Response_text response = Throw e
             /\ trace (default_fetch request env) = [outbound call])
      \/ (exists call response urls errorText,
             fetch_reply call = Return response
             /\ ok response = false
             /\ Response_text response = Return errorText
             /\ Response_new ("Cache purge failed: " ++ statusText response)
                             (status response) = Throw e
             /\ (~ 200 <= status response <= 599
                 \/ null_body_status (status response) = true)
             /\ trace (default_fetch request env)
                = [ outbound call;
                    purge_failure_line response (request_zoneID request)
                                       urls errorText ])).
Proof.
  unfold default_fetch. intros Hthrow.
  assert (Hbody : passes_validation request env -> exists b, json request = Return b).
  { intros Hp. destruct (passes_validation_inv Hp)
      as (_ & _ & _ & v & _ & _ & _ & _ & _ & _ & Hv & _).
    unfold request_post_url in Hv. destruct (json request) as [b|]; [eauto|discriminate]. }
  destruct (handleRequest_Run request env) as
    [ c Hc
    | v e' Hp Hv He
    | v urls e' Hp Hv Hd Hr
    | v urls response Hp Hv Hd Hr Hok
    | v urls response errorText Hp Hv Hd Hr Hok Ht Hn
    | v urls response e' Hp Hv Hd Hr Hok Ht
    | v urls response errorText e' Hp Hv Hd Hr Hok Ht Hn ];
    cbn in Hthrow; try discriminate Hthrow; injection Hthrow as ->;
    (split; [exact Hp|]); (split; [exact (Hbody Hp)|]).
  - left. exists v. auto.
  - right. left. eexists. split; [exact Hr|reflexivity].
  - right. right. left.
    exists (purge_call urls (request_zoneID request) (CF_API_TOKEN env)), response.
    repeat match goal with |- _ /\ _ => split end; try assumption; reflexivity.
  - right. right. right.
    exists (purge_call urls (request_zoneID request) (CF_API_TOKEN env)),
      response, urls, errorText.
    repeat match goal with |- _ /\ _ => split end; try assumption; try reflexivity.
    destruct (Response_new_throws _ _ Hn) as [[H _]|(_ & H & _)]; auto.
Qed.

(** X9: when the purge call of a validated request is rejected by
    [fetch] (a network failure), the handler ends with that exception
    after the one call: no response, no console output, no second
    attempt. *)
Theorem rejected_fetch_propagates (request : Request) (env : Env)
    (call : FetchCall) (e : JSError) :
  In (outbound call) (trace (default_fetch request env)) ->
  fetch_reply call = Throw e ->
  default_fetch request env = ([outbound call], Throw e).
Proof.
  unfold default_fetch. intros Hin Hreply.
  destruct (handleRequest_Run request env) as
    [ c Hc
    | v e' Hp Hv He
    | v urls e' Hp Hv Hd Hr
    | v urls response Hp Hv Hd Hr Hok
    | v urls response errorText Hp Hv Hd Hr Hok Ht Hn
    | v urls response e' Hp Hv Hd Hr Hok Ht
    | v urls response errorText e' Hp Hv Hd Hr Hok Ht Hn ];
    unfold trace in Hin; cbn [fst] in Hin.
  - exfalso. destruct c; cbn in Hin; try (destruct (json request); cbn in Hin);
      repeat (destruct Hin as [Hin|Hin]; try discriminate Hin); exact Hin.
  - destruct Hin.
  - destruct Hin as [Hin|[]]. injection Hin as <-. congruence.
  - destruct Hin as [Hin|Hin]; [injection Hin as <-; congruence|].
    cbn in Hin. destruct Hin as [Hin|[]]. discriminate Hin.
  - destruct Hin as [Hin|Hin]; [injection Hin as <-; congruence|].
    destruct Hin as [Hin|[]]. discriminate Hin.
  - destruct Hin as [Hin|[]]. injection Hin as <-. congruence.
  - destruct Hin as [Hin|Hin]; [injection Hin as <-; congruence|].
    destruct Hin as [Hin|[]]. discriminate Hin.
Qed.

(** X10: a response of the handler has status 200, 400, 405 or 500,
    or else the status of a reply to its purge call that was not ok. *)
Theorem response_status_classes (request : Request) (env : Env) (r : Response) :
  outcome (default_fetch request env) = Return r ->
  status r = 200 \/ status r = 400 \/ status r = 405 \/ status r = 500
  \/ exists call response,
       In (outbound call) (trace (default_fetch request env))
       /\ fetch_reply call = Return response
       /\ ok response = false
       /\ status r = status response.
Proof.
  unfold default_fetch. intros Hret.
  destruct (handleRequest_Run request env) as
    [ c Hc
    | v e' Hp Hv He
    | v urls e' Hp Hv Hd Hr
    | v urls response Hp Hv Hd Hr Hok
    | v urls response errorText Hp Hv Hd Hr Hok Ht Hn
    | v urls response e' Hp Hv Hd Hr Hok Ht
    | v urls response errorText e' Hp Hv Hd Hr Hok Ht Hn ];
    cbn in Hret; try discriminate Hret; injection Hret as <-.
  - cbn [status new_Response]. destruct (check_status_values c) as [H|[H|H]]; auto.
  - left. reflexivity.
  - do 4 right.
    exists (purge_call urls (request_zoneID request) (CF_API_TOKEN env)), response.
    split; [left; reflexivity|]. auto.
Qed.

(** X14: the handler writes with [console.log] only to report a purge
    the provider accepted: a [console.log] line in the trace means the
    purge call was answered ok and the response is 200 OK. *)
Theorem console_log_only_on_success (request : Request) (env : Env)
    (args : list string) :
  In (console_log args) (trace (default_fetch request env)) ->
  outcome (default_fetch request env) = Return (new_Response "OK" 200)
  /\ exists call response,
       In (outbound call) (trace (default_fetch request env))
       /\ fetch_reply call = Return response
       /\ ok response = true.
Proof.
  unfold default_fetch. intros Hin.
  destruct (handleRequest_Run request env) as
    [ c Hc
    | v e' Hp Hv He
    | v urls e' Hp Hv Hd Hr
    | v urls response Hp Hv Hd Hr Hok
    | v urls response errorText Hp Hv Hd Hr Hok Ht Hn
    | v urls response e' Hp Hv Hd Hr Hok Ht
    | v urls response errorText e' Hp Hv Hd Hr Hok Ht Hn ];
    cbn in Hin.
  - exfalso. exact (check_console_errors_only _ _ _ Hin).
  - destruct Hin.
  - destruct Hin as [Hin|[]]. discriminate Hin.
  - split; [reflexivity|].
    exists (purge_call urls (request_zoneID request) (CF_API_TOKEN env)), response.
    split; [left; reflexivity|]. auto.
  - destruct Hin as [Hin|[Hin|[]]]; discriminate Hin.
  - destruct Hin as [Hin|[]]; discriminate Hin.
  - destruct Hin as [Hin|[Hin|[]]]; discriminate Hin.
Qed.

Lemma first_failure_token (request : Request) (env1 env2 : Env) :
  nonempty (CF_API_TOKEN env1) = nonempty (CF_API_TOKEN env2) ->
  first_failure request env1 = first_failure request env2.
Proof.
  intros Htok. unfold first_failure, check_order.
  cbn [find check_holds]. rewrite Htok. reflexivity.
Qed.

(** X15: the API token reaches the Authorization header of the purge
    call and nothing else: with two non-empty tokens to which the
    provider answers alike, the runs give the same outcome, the same
    console output, and calls to the same endpoint with the same
    body. *)
Theorem token_reaches_only_the_authorization_header (request : Request)
    (token1 token2 : string) :
  token1 <> "" -> token2 <> "" ->
  (forall urls,
      fetch_reply (purge_call urls (request_zoneID request) (Some token1))
      = fetch_reply (purge_call urls (request_zoneID request) (Some token2))) ->
  let run1 := default_fetch request {| CF_API_TOKEN := Some token1 |} in
  let run2 := default_fetch request {| CF_API_TOKEN := Some token2 |} in
  outcome run1 = outcome run2
  /\ console_events (trace run1) = console_events (trace run2)
  /\ map fetch_url (fetch_calls (trace run1))
     = map fetch_url (fetch_calls (trace run2))
  /\ map fetch_body (fetch_calls (trace run1))
     = map fetch_body (fetch_calls (trace run2)).
Proof.
  intros H1 H2 Hreply. cbv zeta. unfold default_fetch.
  rewrite !handleRequest_first_failure.
  rewrite (@first_failure_token request {| CF_API_TOKEN := Some token1 |}
             {| CF_API_TOKEN := Some token2 |}).
  2:{ cbn. destruct token1, token2; try reflexivity; congruence. }
  destruct (first_failure request _) as [c|].
  - repeat split.
  - unfold after_validation. destruct (request_post_url request) as [v|];
      [|repeat split].
    destruct (deriveUrls (request_action request) v) as [urls|e];
      [|repeat split].
    rewrite !dispatch_reply. cbn [CF_API_TOKEN]. rewrite (Hreply urls).
    destruct (fetch_reply _) as [response|e]; [|repeat split].
    destruct (ok response); repeat split.
Qed.

(** X16: of a request the handler reads the method, the Content-Type
    header, the path and the body: two requests that agree on these
    are handled alike, whatever their other headers and the rest of
    their URL. *)
Theorem only_method_content_type_path_and_body_are_read
    (request1 request2 : Request) (env : Env) :
  method request1 = method request2 ->
  Headers_get "content-type" (headers request1)
  = Headers_get "content-type" (headers request2) ->
  pathname (url request1) = pathname (url request2) ->
  json request1 = json request2 ->
  default_fetch request1 env = default_fetch request2 env.
Proof.
  intros Hm Hh Hp Hj.
  unfold default_fetch, handleRequest, validateRequest, parseWebhookBody.
  rewrite Hm, Hh, Hp, Hj. reflexivity.
Qed.

End Runs.

(* ================================================================== *)
(** ** Further properties of the validators and of the planner *)

(** X1: [validateRequest] lets a request through exactly when its
    method is POST and its Content-Type header (looked up without
    regard to case, joined when repeated) contains application/json
    somewhere; it answers 405 for another method and 400 for a POST
    without such a header. *)
Theorem validateRequest_accepts_iff (request : Request) :
  (validateRequest request = None
   <-> method request = "POST"
       /\ exists v, Headers_get "content-type" (headers request) = Some v
                    /\ contains v "application/json")
  /\ (forall r, validateRequest request = Some r ->
        (method request <> "POST" /\ status r = 405)
        \/ (method request = "POST" /\ status r = 400)).
Proof.
  unfold validateRequest.
  destruct (String.eqb (method request) "POST") eqn:Hm; cbn [negb].
  - apply String.eqb_eq in Hm.
    destruct (Headers_get "content-type" (headers request)) as [v|].
    + rewrite content_type_or_empty.
      destruct (JSString.includes "application/json" v) eqn:Hi; cbn [negb].
      * split; [|discriminate]. split; [|reflexivity].
        intros _. split; [exact Hm|]. exists v. split; [reflexivity|].
        apply includes_contains. exact Hi.
      * split.
        -- split; [discriminate|]. intros (_ & v' & [= <-] & Hc).
           apply includes_contains in Hc. congruence.
        -- intros r [= <-]. right. split; [exact Hm | reflexivity].
    + cbn. split.
      * split; [discriminate|]. intros (_ & v' & Hv & _). discriminate Hv.
      * intros r [= <-]. right. split; [exact Hm | reflexivity].
  - apply String.eqb_neq in Hm. split.
    + split; [discriminate|]. intros [Hp _]. contradiction.
    + intros r [= <-]. left. split; [exact Hm | reflexivity].
Qed.

(** X2: [validateAction] lets through the two actions postPublished
    and postUpdated, spelled exactly so, and nothing else; an absent or
    empty action is answered 400 "missing action", any other 400
    "invalid action". *)
Theorem validateAction_accepts_iff (action : option string) :
  (validateAction action = None
   <-> action = Some "postPublished" \/ action = Some "postUpdated")
  /\ (forall r, validateAction action = Some r ->
        ((action = None \/ action = Some "")
         /\ r = new_Response ERROR_MISSING_ACTION 400)
        \/ ((exists a, action = Some a /\ a <> "")
            /\ r = new_Response ERROR_INVALID_ACTION 400)).
Proof.
  unfold validateAction.
  destruct action as [a|]; cbn [JS.truthy_str negb].
  - destruct a as [|c a'] eqn:Ha; cbn [JSString.Boolean negb].
    + split.
      * split; [discriminate|]. intros [H|H]; discriminate H.
      * intros r [= <-]. left. split; [right; reflexivity | reflexivity].
    + rewrite <- Ha. rewrite Array_includes_VALID_ACTIONS.
      destruct (String.eqb a "postPublished") eqn:Hp;
        [|destruct (String.eqb a "postUpdated") eqn:Hu]; cbn [orb negb].
      * apply String.eqb_eq in Hp. split; [|discriminate].
        split; [intros _; left; congruence | reflexivity].
      * apply String.eqb_eq in Hu. split; [|discriminate].
        split; [intros _; right; congruence | reflexivity].
      * apply String.eqb_neq in Hp, Hu. split.
        -- split; [discriminate|]. intros [[= H]|[= H]]; contradiction.
        -- intros r [= <-]. right. split; [|reflexivity].
           exists a. split; [reflexivity|]. rewrite Ha. discriminate.
  - split.
    + split; [discriminate|]. intros [H|H]; discriminate H.
    + intros r [= <-]. left. split; [left; reflexivity | reflexivity].
Qed.

Lemma post_current_url_shape (b v : JSValue) :
  post_current_url b = Some v
  <-> exists top post current,
        b = JObj top
        /\ JS.lookup "post" top = Some (JObj post)
        /\ JS.lookup "current" post = Some (JObj current)
        /\ JS.lookup "url" current = Some v.
Proof.
  unfold post_current_url. split.
  - destruct b as [| | | | |top]; cbn [JS.opt_get]; try discriminate.
    destruct (JS.lookup "post" top) as [[| | | | |post]|] eqn:Hp;
      cbn [JS.opt_get]; try discriminate.
    destruct (JS.lookup "current" post) as [[| | | | |current]|] eqn:Hc;
      cbn [JS.opt_get]; try discriminate.
    intros Hu. exists top, post, current. auto.
  - intros (top & post & current & -> & Hp & Hc & Hu).
    cbn [JS.opt_get]. rewrite Hp. cbn [JS.opt_get]. rewrite Hc.
    cbn [JS.opt_get]. exact Hu.
Qed.

(** X3: [validateWebhookBody] lets through exactly the bodies that
    are an object whose [post] is an object whose [current] is an
    object with a truthy [url]; for every other body (a missing link,
    a [null], an array or a primitive on the way, an empty or zero
    [url]) it does not throw: it answers 400 and writes one line to
    the error console. *)
Theorem validateWebhookBody_accepts_iff (b : JSValue) :
  (well_formed_webhook b /\ validateWebhookBody b = ([], Return None))
  \/ (~ well_formed_webhook b
      /\ validateWebhookBody b
         = ([console_error ["Invalid webhook payload: missing post.current.url"]],
            Return (Some (new_Response ERROR_INVALID_WEBHOOK 400)))).
Proof.
  unfold validateWebhookBody.
  destruct (JS.truthy (post_current_url b)) eqn:Ht; cbn [negb].
  - left. split; [|reflexivity].
    destruct (post_current_url b) as [v|] eqn:Hv; [|discriminate Ht].
    apply post_current_url_shape in Hv.
    destruct Hv as (top & post & current & Hb & Hp & Hc & Hu).
    exists top, post, current, v. auto.
  - right. split; [|reflexivity].
    intros (top & post & current & v & Hb & Hp & Hc & Hu & Hv).
    assert (Hpcu : post_current_url b = Some v).
    { apply post_current_url_shape. exists top, post, current. auto. }
    rewrite Hpcu in Ht. congruence.
Qed.

(** X4: the list of [getUrlsToPurge] always begins with the six
    site-wide URLs; it has a seventh element exactly for the two
    recognised actions, and for any other action, or none, it is the
    six site-wide URLs alone. *)
Theorem getUrlsToPurge_shape (action : option string) (rootURL postURL : string) :
  firstn 6 (getUrlsToPurge action rootURL postURL) = site_wide rootURL
  /\ (length (getUrlsToPurge action rootURL postURL) = 7%nat
      <-> action = Some "postPublished" \/ action = Some "postUpdated")
  /\ (action <> Some "postPublished" -> action <> Some "postUpdated" ->
      getUrlsToPurge action rootURL postURL = site_wide rootURL).
Proof.
  unfold getUrlsToPurge, ACTION_POST_PUBLISHED, ACTION_POST_UPDATED.
  destruct action as [a|].
  - destruct (String.eqb a "postPublished") eqn:Hp;
      [|destruct (String.eqb a "postUpdated") eqn:Hu].
    + apply String.eqb_eq in Hp. subst a.
      split; [reflexivity|]. split; [split; auto|]. congruence.
    + apply String.eqb_eq in Hu. subst a.
      split; [reflexivity|]. split; [split; auto|]. congruence.
    + apply String.eqb_neq in Hp, Hu.
      split; [reflexivity|]. split; [|reflexivity].
      split; [discriminate|]. intros [[= H]|[= H]]; contradiction.
  - split; [reflexivity|]. split; [|reflexivity].
    split; [discriminate|]. intros [H|H]; discriminate H.
Qed.

Lemma starts_with_refl (s : string) : JSString.starts_with s s = true.
Proof.
  rewrite <- (string_app_empty_r s) at 2. apply starts_with_app.
Qed.

(** X5: every URL [getUrlsToPurge] returns is on the site: it starts
    with the root URL, the one exception being the post URL that
    postUpdated adds as given. *)
Theorem getUrlsToPurge_stays_on_site (action : option string)
    (rootURL postURL u : string) :
  In u (getUrlsToPurge action rootURL postURL) ->
  JSString.starts_with rootURL u = true
  \/ (action = Some "postUpdated" /\ u = postURL).
Proof.
  assert (Hsite : forall x, In x (site_wide rootURL) ->
                            JSString.starts_with rootURL x = true).
  { intros x Hx. cbn in Hx.
    repeat (destruct Hx as [<-|Hx]; [apply starts_with_app|]). destruct Hx. }
  unfold getUrlsToPurge, ACTION_POST_PUBLISHED, ACTION_POST_UPDATED.
  fold (site_wide rootURL).
  destruct action as [a|]; [|intros Hin; left; exact (Hsite _ Hin)].
  destruct (String.eqb a "postPublished") eqn:Hp;
    [|destruct (String.eqb a "postUpdated") eqn:Hu].
  - intros Hin. left. apply in_app_or in Hin. destruct Hin as [Hin|[<-|[]]].
    + exact (Hsite _ Hin).
    + apply starts_with_refl.
  - apply String.eqb_eq in Hu. subst a.
    intros Hin. apply in_app_or in Hin. destruct Hin as [Hin|[<-|[]]].
    + left. exact (Hsite _ Hin).
    + right. split; reflexivity.
  - intros Hin. left. exact (Hsite _ Hin).
Qed.

(* ================================================================== *)
(** ** Further properties of the path *)

Lemma list_ascii_app (a b : string) :
  list_ascii_of_string (a ++ b)
  = (list_ascii_of_string a ++ list_ascii_of_string b)%list.
Proof. induction a as [|c a IH]; cbn; [reflexivity | rewrite IH; reflexivity]. Qed.

Lemma split_aux_slash_free (cur s : string) :
  slash_free cur -> Forall slash_free (JSString.split_aux "/" cur s).
Proof.
  revert cur. induction s as [|c s IH]; intros cur Hcur; cbn [JSString.split_aux].
  - constructor; [exact Hcur | constructor].
  - destruct (Ascii.eqb c "/") eqn:Hc.
    + constructor; [exact Hcur|]. apply IH. intros [].
    + apply IH. unfold slash_free. rewrite list_ascii_app. intros Hin.
      apply in_app_or in Hin. destruct Hin as [Hin|[Hin|[]]].
      * exact (Hcur Hin).
      * subst c. rewrite Ascii.eqb_refl in Hc. discriminate Hc.
Qed.

Lemma split_aux_slashes (cur : string) (n : nat) :
  JSString.split_aux "/" cur (slashes n) = cur :: repeat EmptyString n.
Proof.
  revert cur. induction n as [|n IH]; intros cur; cbn; [reflexivity|].
  rewrite IH. reflexivity.
Qed.

Lemma filter_Boolean_repeat (n : nat) :
  filter JSString.Boolean (repeat EmptyString n) = [].
Proof. induction n as [|n IH]; cbn; [reflexivity | exact IH]. Qed.

Lemma path_segments_slashes (n : nat) : path_segments (slashes n) = [].
Proof.
  unfold path_segments, JSString.split. rewrite split_aux_slashes.
  cbn [filter JSString.Boolean]. apply filter_Boolean_repeat.
Qed.

Lemma path_segments_leading_slashes (n : nat) (rest : string) :
  path_segments (slashes n ++ rest) = path_segments rest.
Proof.
  induction n as [|n IH]; cbn [slashes append]; [reflexivity|].
  unfold path_segments, JSString.split in *. cbn. exact IH.
Qed.

Lemma hex_is_slash_free (z : string) :
  matches_zone_pattern z -> slash_free z /\ z <> "".
Proof.
  intros [Hlen Hhex]. split.
  - intros Hin. rewrite Forall_forall in Hhex. specialize (Hhex _ Hin).
    cbn in Hhex. repeat (destruct Hhex as [Hhex|Hhex]; [discriminate Hhex|]).
    exact Hhex.
  - intros ->. discriminate Hlen.
Qed.

Lemma path_segments_single (z : string) (m n : nat) :
  slash_free z -> z <> "" ->
  path_segments (slashes m ++ z ++ slashes n) = [z].
Proof.
  intros Hfree Hne. rewrite path_segments_leading_slashes.
  unfold path_segments, JSString.split.
  rewrite split_aux_piece by exact Hfree.
  rewrite split_aux_slashes. cbn [append filter].
  rewrite filter_Boolean_repeat.
  destruct z; [contradiction | reflexivity].
Qed.

(** X13: the zone and the action the handler takes from the path are
    never empty and never contain a slash, whatever the path. *)
Theorem path_parameters_are_clean (request : Request) (x : string) :
  request_zoneID request = Some x \/ request_action request = Some x ->
  x <> "" /\ slash_free x.
Proof.
  intros Hx.
  assert (Hin : In x (path_segments (pathname (url request)))).
  { destruct Hx as [Hx|Hx]; exact (nth_error_In _ _ Hx). }
  unfold path_segments in Hin. apply filter_In in Hin.
  destruct Hin as [Hin Hb]. split.
  - intros ->. discriminate Hb.
  - pose proof (@split_aux_slash_free EmptyString (pathname (url request))) as Hall.
    rewrite Forall_forall in Hall. apply Hall; [intros []|exact Hin].
Qed.

Section PathErrors.

Context {rt : Runtime}.

(** X11: a POST with a JSON content type to a path that holds nothing
    but slashes (the empty path and [/] included) is answered 400
    "missing zone ID"; nothing is logged and the body is not looked
    at. *)
Theorem slash_only_path_misses_zone (request : Request) (env : Env) (n : nat) :
  validateRequest request = None ->
  pathname (url request) = slashes n ->
  default_fetch request env
  = ([], Return (new_Response ERROR_MISSING_ZONE_ID 400)).
Proof.
  intros Hvalid Hpath. unfold default_fetch, handleRequest.
  rewrite Hvalid. fold (path_segments (pathname (url request))).
  rewrite Hpath, path_segments_slashes. reflexivity.
Qed.

(** X12: a POST with a JSON content type to a path that holds a valid
    zone and no further segment, with or without slashes around it, is
    answered 400 "missing action". *)
Theorem zone_only_path_misses_action (request : Request) (env : Env)
    (zoneID : string) (m n : nat) :
  validateRequest request = None ->
  matches_zone_pattern zoneID ->
  pathname (url request) = slashes m ++ zoneID ++ slashes n ->
  default_fetch request env
  = ([], Return (new_Response ERROR_MISSING_ACTION 400)).
Proof.
  intros Hvalid Hzone Hpath. unfold default_fetch, handleRequest.
  rewrite Hvalid. fold (path_segments (pathname (url request))).
  destruct (hex_is_slash_free Hzone) as [Hfree Hne].
  rewrite Hpath, path_segments_single by assumption.
  cbn [nth_error]. unfold validateZoneID.
  cbn [JS.truthy_str JSString.template].
  rewrite zone_regex_test_patternb.
  apply matches_zone_patternb_spec in Hzone. rewrite Hzone.
  destruct zoneID; [contradiction | reflexivity].
Qed.

End PathErrors.

(** X17: for postPublished the derived list depends on the post URL
    only through its scheme and host: two posts of one site give the
    same seven URLs, and the path of the new post plays no part. *)
Theorem published_list_depends_on_site_only `{Runtime} (v1 v2 : JSValue)
    (u1 u2 : URL) :
  URL_new v1 = Return u1 ->
  URL_new v2 = Return u2 ->
  protocol u1 = protocol u2 ->
  host u1 = host u2 ->
  deriveUrls (Some "postPublished") v1 = deriveUrls (Some "postPublished") v2.
Proof.
  intros H1 H2 Hp Hh. unfold deriveUrls. rewrite H1, H2, Hp, Hh. reflexivity.
Qed.

(* ================================================================== *)
(** ** The further properties on concrete requests *)

Lemma outbound_call_is_a_validated_purge_witness :
  exists zoneID apiToken,
    request_zoneID (Examples.webhook "postUpdated" Examples.post_url)
    = Some zoneID
    /\ matches_zone_pattern zoneID
    /\ CF_API_TOKEN Examples.env = Some apiToken /\ apiToken <> ""
    /\ fetch_url Examples.updated_call
       = "https://api.cloudflare.com/client/v4/zones/" ++ zoneID ++ "/purge_cache"
    /\ fetch_method Examples.updated_call = "POST"
    /\ fetch_headers Examples.updated_call
       = [ ("Content-Type", "application/json");
           ("Authorization", "Bearer " ++ apiToken) ].
Proof.
  apply (@outbound_call_is_a_validated_purge Examples.accepting
           (Examples.webhook "postUpdated" Examples.post_url) Examples.env
           Examples.updated_call).
  left. reflexivity.
Defined.

Lemma exceptions_come_from_the_platform_witness :
  let request := Examples.webhook "postUpdated" Examples.post_url in
  let e := body_with_null_body_status in
  let run := @default_fetch Examples.unchanged request Examples.env in
  passes_validation request Examples.env
  /\ (exists b, json request = Return b)
  /\ ((exists v, request_post_url request = Some v
                 /\ @URL_new Examples.unchanged v = Throw e
                 /\ trace run = [])
      \/ (exists call, @fetch_reply Examples.unchanged call = Throw e
                       /\ trace run = [outbound call])
      \/ (exists call response,
             @fetch_reply Examples.unchanged call = Return response
             /\ ok response = false
             /\ @Response_text Examples.unchanged response = Throw e
             /\ trace run = [outbound call])
      \/ (exists call response urls errorText,
             @fetch_reply Examples.unchanged call = Return response
             /\ ok response = false
             /\ @Response_text Examples.unchanged response = Return errorText
             /\ Response_new ("Cache purge failed: " ++ statusText response)
                             (status response) = Throw e
             /\ (~ 200 <= status response <= 599
                 \/ null_body_status (status response) = true)
             /\ trace run
                = [ outbound call;
                    purge_failure_line response (request_zoneID request)
                                       urls errorText ])).
Proof.
  cbv zeta.
  apply (@exceptions_come_from_the_platform Examples.unchanged
           (Examples.webhook "postUpdated" Examples.post_url) Examples.env
           body_with_null_body_status).
  reflexivity.
Defined.

Lemma rejected_fetch_propagates_witness :
  @default_fetch Examples.offline
     (Examples.webhook "postUpdated" Examples.post_url) Examples.env
  = ([outbound Examples.updated_call], Throw Examples.network_down).
Proof.
  apply (@rejected_fetch_propagates Examples.offline
           (Examples.webhook "postUpdated" Examples.post_url) Examples.env
           Examples.updated_call Examples.network_down).
  - left. reflexivity.
  - reflexivity.
Defined.

Lemma response_status_classes_witness :
  let request := Examples.webhook "postUpdated" Examples.post_url in
  let r := new_Response "Cache purge failed: Forbidden" 403 in
  status r = 200 \/ status r = 400 \/ status r = 405 \/ status r = 500
  \/ exists call response,
       In (outbound call)
          (trace (@default_fetch Examples.refusing request Examples.env))
       /\ @fetch_reply Examples.refusing call = Return response
       /\ ok response = false
       /\ status r = status response.
Proof.
  cbv zeta.
  apply (@response_status_classes Examples.refusing
           (Examples.webhook "postUpdated" Examples.post_url) Examples.env
           (new_Response "Cache purge failed: Forbidden" 403)).
  reflexivity.
Defined.

Lemma console_log_only_on_success_witness :
  let request := Examples.webhook "postUpdated" Examples.post_url in
  outcome (@default_fetch Examples.accepting request Examples.env)
  = Return (new_Response "OK" 200)
  /\ exists call response,
       In (outbound call)
          (trace (@default_fetch Examples.accepting request Examples.env))
       /\ @fetch_reply Examples.accepting call = Return response
       /\ ok response = true.
Proof.
  cbv zeta.
  apply (@console_log_only_on_success Examples.accepting
           (Examples.webhook "postUpdated" Examples.post_url) Examples.env
           ["🧹 Successfully purged: Zone: 0123456789abcdef0123456789ABCDEF - URLs: "
              ++ JSString.join ", " (Examples.site_urls ++ [Examples.post_url])]).
  right. left. reflexivity.
Defined.

Lemma token_reaches_only_the_authorization_header_witness :
  let request := Examples.webhook "postUpdated" Examples.post_url in
  let run1 := @default_fetch Examples.refusing request
                {| CF_API_TOKEN := Some "secret-token" |} in
  let run2 := @default_fetch Examples.refusing request
                {| CF_API_TOKEN := Some "another-token" |} in
  outcome run1 = outcome run2
  /\ console_events (trace run1) = console_events (trace run2)
  /\ map fetch_url (fetch_calls (trace run1))
     = map fetch_url (fetch_calls (trace run2))
  /\ map fetch_body (fetch_calls (trace run1))
     = map fetch_body (fetch_calls (trace run2)).
Proof.
  apply (@token_reaches_only_the_authorization_header Examples.refusing
           (Examples.webhook "postUpdated" Examples.post_url)
           "secret-token" "another-token").
  - discriminate.
  - discriminate.
  - reflexivity.
Defined.

Lemma only_method_content_type_path_and_body_are_read_witness :
  @default_fetch Examples.accepting
     (Examples.webhook "postUpdated" Examples.post_url) Examples.env
  = @default_fetch Examples.accepting
      {| method := "POST";
         headers := [ ("X-Forwarded-For", "203.0.113.7");
                      ("CONTENT-TYPE", "application/json");
                      ("User-Agent", "curl/8") ];
         url := {| href := "http://other.example.net/" ++ Examples.zone
                             ++ "/postUpdated?x=1";
                   protocol := "http:";
                   host := "other.example.net";
                   pathname := "/" ++ Examples.zone ++ "/postUpdated" |};
         json := Return (Examples.webhook_body Examples.post_url) |}
      Examples.env.
Proof.
  apply (@only_method_content_type_path_and_body_are_read Examples.accepting);
    reflexivity.
Defined.

Lemma getUrlsToPurge_stays_on_site_witness :
  JSString.starts_with "https://example.com" "https://example.com/my-post/" = true
  \/ (Some "postUpdated" = Some "postUpdated"
      /\ "https://example.com/my-post/" = Examples.post_url).
Proof.
  apply (@getUrlsToPurge_stays_on_site (Some "postUpdated")
           "https://example.com" Examples.post_url
           "https://example.com/my-post/").
  do 6 right. left. reflexivity.
Defined.

Lemma path_parameters_are_clean_witness :
  Examples.zone <> "" /\ slash_free Examples.zone.
Proof.
  apply (@path_parameters_are_clean Examples.long_path_webhook Examples.zone).
  left. reflexivity.
Defined.

Lemma slash_only_path_misses_zone_witness :
  @default_fetch Examples.accepting
     {| method := "POST";
        headers := [ ("Content-Type", "application/json") ];
        url := {| href := "https://purge.example.workers.dev///";
                  protocol := "https:";
                  host := "purge.example.workers.dev";
                  pathname := "///" |};
        json := Return (Examples.webhook_body Examples.post_url) |}
     Examples.env
  = ([], Return (new_Response ERROR_MISSING_ZONE_ID 400)).
Proof.
  apply (@slash_only_path_misses_zone Examples.accepting _ _ 3); reflexivity.
Defined.

Lemma zone_only_path_misses_action_witness :
  @default_fetch Examples.accepting
     {| method := "POST";
        headers := [ ("Content-Type", "application/json") ];
        url := {| href := "https://purge.example.workers.dev/" ++ Examples.zone ++ "/";
                  protocol := "https:";
                  host := "purge.example.workers.dev";
                  pathname := "/" ++ Examples.zone ++ "/" |};
        json := Return (Examples.webhook_body Examples.post_url) |}
     Examples.env
  = ([], Return (new_Response ERROR_MISSING_ACTION 400)).
Proof.
  apply (@zone_only_path_misses_action Examples.accepting _ _ Examples.zone 1 1).
  - reflexivity.
  - apply matches_zone_patternb_spec. reflexivity.
  - reflexivity.
Defined.

Lemma published_list_depends_on_site_only_witness :
  @deriveUrls Examples.accepting (Some "postPublished")
     (JStr "https://example.com/my-post/")
  = @deriveUrls Examples.accepting (Some "postPublished")
      (JStr "https://example.com/another-post/").
Proof.
  apply (@published_list_depends_on_site_only Examples.accepting
           (JStr "https://example.com/my-post/")
           (JStr "https://example.com/another-post/")
           {| href := "https://example.com/my-post/";
              protocol := "https:"; host := "example.com";
              pathname := "/my-post/" |}
           {| href := "https://example.com/another-post/";
              protocol := "https:"; host := "example.com";
              pathname := "/another-post/" |});
    reflexivity.
Defined.
